(** * Lab-report extraction: normalizer, prompt loader, CLI and upload cleanup

    A shallow embedding of [extract_labs.py] and [server.py] and the
    properties of their deterministic parts.

    Decoded JSON is a tree: [json.loads] returns fresh objects and shares
    none of them, so the in-place updates of the Python code are modelled
    as functional updates of the value. *)

From Stdlib Require Import ZArith QArith Floats.SpecFloat Ascii String Lia.
From stdpp Require Import base option list gmap strings sorting.

Open Scope Z_scope.
Open Scope string_scope.

(** ** Python values as produced by [json.loads] *)

Set Warnings "-register-all".

(** A [float] is an IEEE 754 datum ([json.loads] also accepts [NaN] and
    the infinities); an [int] is unbounded. JSON strings and keys are only
    ever compared for equality here and are kept as UTF-8 strings. *)
Inductive pyval : Type :=
  | PNone
  | PBool (b : bool)
  | PInt (z : Z)
  | PFloat (f : spec_float)
  | PStr (s : string)
  | PList (l : list pyval)
  | PDict (m : gmap string pyval).

(** ** Exceptions and the error monad *)

Inductive exn : Type :=
  | AttributeError
  | TypeError
  | RuntimeError (msg : string)
  | FileNotFoundError
  | IsADirectoryError
  | NotADirectoryError
  | FileExistsError
  | OSError
  | ValueError
  | HTTPException (status : Z).

Inductive res (A : Type) : Type :=
  | Ret (a : A)
  | Raise (e : exn).
Arguments Ret {A} a.
Arguments Raise {A} e.

Definition bind {A B : Type} (c : res A) (k : A -> res B) : res B :=
  match c with
  | Ret a => k a
  | Raise e => Raise e
  end.

Notation "'let*' x := c 'in' k" := (bind c (fun x => k))
  (at level 10, x name, c at level 100, k at level 200).

(** A [for] loop that rebuilds every element, stopping at the first raise. *)
Fixpoint for_each {A B : Type} (f : A -> res B) (l : list A) : res (list B) :=
  match l with
  | [] => Ret []
  | a :: l' =>
      let* b := f a in
      let* bs := for_each f l' in
      Ret (b :: bs)
  end.

(** ** Numbers and their comparison *)

(** The numeric value of a number: an exact rational, an infinity or NaN.
    Python compares [int] with [float] exactly, without rounding the
    [int]. *)
Inductive xnum : Type :=
  | XNaN
  | XInf (neg : bool)
  | XFin (q : Q).

Definition float_value (f : spec_float) : xnum :=
  match f with
  | S754_zero _ => XFin 0
  | S754_infinity s => XInf s
  | S754_nan => XNaN
  | S754_finite s m e =>
      XFin (inject_Z (if s then Z.neg m else Z.pos m) * Qpower 2 e)
  end.

(** [isinstance(v, (int, float))] with the value it stands for: [bool] is
    a subclass of [int], [True] is 1 and [False] is 0. *)
Definition num_of (v : pyval) : option xnum :=
  match v with
  | PBool b => Some (XFin (inject_Z (if b then 1 else 0)))
  | PInt z => Some (XFin (inject_Z z))
  | PFloat f => Some (float_value f)
  | _ => None
  end.

Definition isinstance_int_float (v : pyval) : bool :=
  match num_of v with Some _ => true | None => false end.

Definition Qltb (a b : Q) : bool := negb (Qle_bool b a).

Definition xlt (a b : xnum) : bool :=
  match a, b with
  | XNaN, _ | _, XNaN => false
  | XInf true, XInf true => false
  | XInf true, _ => true
  | _, XInf true => false
  | XInf false, _ => false
  | _, XInf false => true
  | XFin p, XFin q => Qltb p q
  end.

(** [a <= b] and [a == b] on numbers; every comparison with NaN is false. *)
Definition xle (a b : xnum) : bool :=
  match a, b with
  | XNaN, _ | _, XNaN => false
  | XInf true, _ => true
  | _, XInf false => true
  | XInf false, _ => false
  | _, XInf true => false
  | XFin p, XFin q => Qle_bool p q
  end.

Definition xeq (a b : xnum) : bool := xle a b && xle b a.

(** [a < b] and [a > b]. Operands that are not numbers raise here; Python
    orders some of them (two strings, two lists), so the model raises at
    least as often as the program. *)
Definition py_lt (a b : pyval) : res bool :=
  match num_of a, num_of b with
  | Some x, Some y => Ret (xlt x y)
  | _, _ => Raise TypeError
  end.

Definition py_gt (a b : pyval) : res bool :=
  match num_of a, num_of b with
  | Some x, Some y => Ret (xlt y x)
  | _, _ => Raise TypeError
  end.

(** ** Dictionaries *)

(** [d.get(k)]: the value, or [None] when the key is absent. *)
Definition dict_get (d : gmap string pyval) (k : string) : pyval :=
  default PNone (d !! k).

(** [v in (None, "")] *)
Definition in_none_empty (v : pyval) : bool :=
  match v with
  | PNone => true
  | PStr s => if decide (s = "") then true else false
  | _ => false
  end.

(** ** [normalize_flags_and_context] *)

(** The body of the loop over [labs], for one entry. *)
Definition normalize_lab (lab : pyval) : res pyval :=
  match lab with
  | PDict m =>
      let flag := dict_get m "flag" in
      let value := dict_get m "value" in
      let ref_low := dict_get m "ref_low" in
      let ref_high := dict_get m "ref_high" in
      let qualifier := dict_get m "qualifier" in
      if in_none_empty flag && isinstance_int_float value
         && isinstance_int_float ref_low && isinstance_int_float ref_high
         && in_none_empty qualifier
      then
        let* below := py_lt value ref_low in
        if below then Ret (PDict (<["flag" := PStr "L"]> m))
        else
          let* above := py_gt value ref_high in
          if above then Ret (PDict (<["flag" := PStr "H"]> m))
          else Ret (PDict (<["flag" := PStr "N"]> m))
      else Ret lab
  | _ => Ret lab
  end.

(** The first half of the function: [context] and its [report_ids]. *)
Definition set_report_ids (d : gmap string pyval) (pdf_names : list string)
  : gmap string pyval :=
  let report_ids := PList (PStr <$> pdf_names) in
  match dict_get d "context" with
  | PDict context => <["context" := PDict (<["report_ids" := report_ids]> context)]> d
  | _ => <["context" := PDict (<["report_ids" := report_ids]> ∅)]> d
  end.

Definition normalize_flags_and_context (data : pyval) (pdf_names : list string)
  : res pyval :=
  match data with
  | PDict d =>
      let d1 := set_report_ids d pdf_names in
      match dict_get d1 "labs" with
      | PList labs =>
          let* labs' := for_each normalize_lab labs in
          Ret (PDict (<["labs" := PList labs']> d1))
      | _ => Ret (PDict d1)
      end
  | _ => Raise AttributeError
  end.

(** ** Vocabulary of the normalizer's properties *)

(** A field that is absent, [null] or the empty string: what
    [d.get(k) in (None, "")] accepts. *)
Definition missing_or_empty (m : gmap string pyval) (k : string) : Prop :=
  m !! k = None \/ m !! k = Some PNone \/ m !! k = Some (PStr "").

(** A field holding a number whose value is [x]. *)
Definition numeric_field (m : gmap string pyval) (k : string) (x : xnum) : Prop :=
  exists v, m !! k = Some v /\ num_of v = Some x.

(** The entries whose flag is inferred. *)
Definition inferable (m : gmap string pyval) : Prop :=
  missing_or_empty m "flag" /\ missing_or_empty m "qualifier" /\
  (exists x, numeric_field m "value" x) /\
  (exists x, numeric_field m "ref_low" x) /\
  (exists x, numeric_field m "ref_high" x).

(** The flag the three-way comparison gives. *)
Definition range_flag (value low high : xnum) : string :=
  if xlt value low then "L" else if xlt high value then "H" else "N".

(** [True] read as 1 and [False] as 0. *)
Definition bool_as_int (v : pyval) : pyval :=
  match v with
  | PBool b => PInt (if b then 1 else 0)
  | _ => v
  end.

(** A JSON boolean or number. *)
Definition bool_or_number (v : pyval) : Prop :=
  match v with
  | PBool _ | PInt _ | PFloat _ => True
  | _ => False
  end.

(** Sample entries: the four of the flag-inference examples, one with a
    flag already set, one with an inverted range and one with a boolean
    value. *)
Definition entry (value low high : Z) : gmap string pyval :=
  <["value" := PInt value]> (<["ref_low" := PInt low]> (<["ref_high" := PInt high]> ∅)).

Definition flagged_entry : gmap string pyval := <["flag" := PStr "A"]> (entry 3 4 10).

Definition inverted_entry : gmap string pyval := entry 5 5 1.

Definition bool_entry : gmap string pyval :=
  <["value" := PBool true]> (<["ref_low" := PInt 2]> (<["ref_high" := PInt 10]> ∅)).

Definition with_labs (labs : list pyval) : gmap string pyval :=
  <["labs" := PList labs]> ∅.

(** Two lab entries that agree on every field but [flag]. *)
Definition same_but_flag (lab lab' : pyval) : Prop :=
  lab' = lab \/
  exists m m', lab = PDict m /\ lab' = PDict m' /\
    forall k, k <> "flag" -> m' !! k = m !! k.

(** ** Python strings as sequences of code points *)

(** The prompt file is decoded text: a list of Unicode code points. *)
Abbreviation text := (list N).

(** The code points of an ASCII literal. *)
Definition text_of (s : string) : text :=
  (fun c => N_of_ascii c) <$> list_ascii_of_string s.

Definition SYSTEM : text := text_of "SYSTEM".
Definition USER : text := text_of "USER".

(** The line boundaries of [str.splitlines]: LF, VT, FF, CR, FS, GS, RS,
    NEL, LS and PS. *)
Definition is_linebreak (c : N) : bool :=
  bool_decide (c ∈ [10; 11; 12; 13; 28; 29; 30; 133; 8232; 8233]%N).

(** The code points [str.isspace] accepts, which [str.strip] removes. *)
Definition isspace (c : N) : bool :=
  bool_decide (c ∈ [9; 10; 11; 12; 13; 28; 29; 30; 31; 32; 133; 160; 5760;
                     8192; 8193; 8194; 8195; 8196; 8197; 8198; 8199; 8200;
                     8201; 8202; 8232; 8233; 8239; 8287; 12288]%N).

(** [str.splitlines()]: [cur] is the line being read, last code point
    first. CR LF is one boundary; a boundary at the very end opens no
    further line. *)
Fixpoint splitlines_from (cur : text) (s : text) : list text :=
  match s with
  | [] => match cur with [] => [] | _ => [rev cur] end
  | c :: rest =>
      if is_linebreak c then
        rev cur ::
          match rest with
          | c2 :: rest' =>
              if (c =? 13)%N && (c2 =? 10)%N then splitlines_from [] rest'
              else splitlines_from [] rest
          | [] => splitlines_from [] rest
          end
      else splitlines_from (c :: cur) rest
  end.

Definition splitlines (s : text) : list text := splitlines_from [] s.

Fixpoint lstrip_by (p : N -> bool) (s : text) : text :=
  match s with
  | c :: rest => if p c then lstrip_by p rest else s
  | [] => []
  end.

Definition rstrip_by (p : N -> bool) (s : text) : text :=
  rev (lstrip_by p (rev s)).

(** [s.rstrip(chars)] and [s.strip()] *)
Definition rstrip_chars (chars : text) (s : text) : text :=
  rstrip_by (fun c => bool_decide (c ∈ chars)) s.

Definition strip (s : text) : text := rstrip_by isspace (lstrip_by isspace s).

(** ["\n".join(lines)] *)
Fixpoint join_lines (lines : list text) : text :=
  match lines with
  | [] => []
  | [ln] => ln
  | ln :: rest => ln ++ 10%N :: join_lines rest
  end.

(** [lines[a:b]] and [lines[a:]] for indices that are not negative. *)
Definition slice (lines : list text) (a b : Z) : list text :=
  take (Z.to_nat (b - a)) (drop (Z.to_nat a) lines).

Definition slice_from (lines : list text) (a : Z) : list text :=
  drop (Z.to_nat a) lines.

(** ** [read_prompts_from_markdown] *)

(** [find_index]: the index of the first line whose stripped content is
    the label, or -1. *)
Fixpoint find_index_from (i : Z) (lines : list text) (label : text) : Z :=
  match lines with
  | [] => -1
  | ln :: rest =>
      if decide (strip ln = label) then i
      else find_index_from (i + 1) rest label
  end.

Definition find_index (lines : list text) (label : text) : Z :=
  find_index_from 0 lines label.

(** [lines = [ln.rstrip("\n") for ln in text.splitlines()]] *)
Definition prompt_lines (content : text) : list text :=
  rstrip_chars [10%N] <$> splitlines content.

(** The function once the file is read. *)
Definition parse_prompts (content : text) : res (text * text) :=
  let lines := prompt_lines content in
  let system_idx := find_index lines SYSTEM in
  let user_idx := find_index lines USER in
  if (system_idx =? -1)%Z || (user_idx =? -1)%Z || (user_idx <=? system_idx)%Z then
    Raise (RuntimeError "Could not locate SYSTEM and USER blocks in ai-prompt.md")
  else
    let system_block := strip (join_lines (slice lines (system_idx + 1) user_idx)) in
    let user_block := strip (join_lines (slice_from lines (user_idx + 1))) in
    if bool_decide (system_block = []) || bool_decide (user_block = []) then
      Raise (RuntimeError "SYSTEM or USER block appears empty in ai-prompt.md")
    else Ret (system_block, user_block).

(** [path.read_text(encoding="utf-8")] over the text files of a file
    system, keyed by path; files that are not UTF-8 are left out. *)
Definition read_text (fs : gmap string text) (path : string) : res text :=
  match fs !! path with
  | Some content => Ret content
  | None => Raise FileNotFoundError
  end.

Definition read_prompts_from_markdown (fs : gmap string text) (markdown_path : string)
  : res (text * text) :=
  let* content := read_text fs markdown_path in
  parse_prompts content.

(** ** Vocabulary of the prompt loader's properties *)

(** No line is the marker. *)
Definition marker_missing (lines : list text) (label : text) : Prop :=
  forall ln, ln ∈ lines -> strip ln <> label.

(** Line [i] is the marker and no earlier line is. *)
Definition first_marker (lines : list text) (label : text) (i : nat) : Prop :=
  (exists ln, lines !! i = Some ln /\ strip ln = label) /\
  forall (j : nat) (ln : text), (j < i)%nat -> lines !! j = Some ln -> strip ln <> label.

(** The lines strictly between lines [i] and [j], and those after [j]. *)
Definition lines_between (lines : list text) (i j : nat) : list text :=
  take (j - S i) (drop (S i) lines).

Definition lines_after (lines : list text) (j : nat) : list text :=
  drop (S j) lines.

Definition system_block (lines : list text) (i j : nat) : text :=
  strip (join_lines (lines_between lines i j)).

Definition user_block (lines : list text) (j : nat) : text :=
  strip (join_lines (lines_after lines j)).

Definition nl : text := [10%N].

(** A text that neither begins nor ends with whitespace. *)
Definition trimmed (s : text) : Prop :=
  (forall c, head s = Some c -> isspace c = false) /\
  (forall c, last s = Some c -> isspace c = false).

(** A text of whitespace only. *)
Definition blank (s : text) : Prop := forall c, c ∈ s -> isspace c = true.

(** [t] is [raw] with the whitespace at its two ends taken away. *)
Definition trims_to (raw t : text) : Prop :=
  exists before after,
    raw = (before ++ t ++ after)%list /\ blank before /\ blank after /\ trimmed t.

(** A line that reads [label] once the whitespace around it is taken
    away; the absence of such a line; the first such line. *)
Definition marker_line (label ln : text) : Prop := trims_to ln label.

Definition no_marker_line (lines : list text) (label : text) : Prop :=
  forall ln, ln ∈ lines -> ~ marker_line label ln.

Definition first_marker_line (lines : list text) (label : text) (i : nat) : Prop :=
  (exists ln, lines !! i = Some ln /\ marker_line label ln) /\
  forall (j : nat) (ln : text), (j < i)%nat -> lines !! j = Some ln ->
    ~ marker_line label ln.

(** The failures of the loader on a file that was read: a marker line is
    absent, the first USER line is not after the first SYSTEM line, or
    one of the two blocks is whitespace only. *)
Definition loader_failure (lines : list text) : Prop :=
  no_marker_line lines SYSTEM \/ no_marker_line lines USER \/
  exists i j, first_marker_line lines SYSTEM i /\ first_marker_line lines USER j /\
    ((j <= i)%nat \/ blank (join_lines (lines_between lines i j))
     \/ blank (join_lines (lines_after lines j))).

(** A text with every line feed turned into carriage return, line feed. *)
Fixpoint crlf (s : text) : text :=
  match s with
  | [] => []
  | c :: rest => if (c =? 10)%N then 13%N :: 10%N :: crlf rest else c :: crlf rest
  end.

(** The file of the parsing example, and one with blanks around the
    markers. *)
Definition sample_prompt : text :=
  text_of "SYSTEM" ++ nl ++ text_of "A" ++ nl ++ text_of "B" ++ nl ++
  text_of "USER" ++ nl ++ text_of "C" ++ nl ++ text_of "D".

Definition padded_prompt : text :=
  text_of "  SYSTEM " ++ nl ++ text_of "A" ++ nl ++
  text_of " USER  " ++ nl ++ text_of "B".

(** A file with a USER line before its SYSTEM line and another after. *)
Definition reordered_prompt : text :=
  text_of "USER" ++ nl ++ text_of "x" ++ nl ++ text_of "SYSTEM" ++ nl ++
  text_of "A" ++ nl ++ text_of "USER" ++ nl ++ text_of "B".

(** ** The command line: [main] *)

Record cli_args : Type := {
  files : list string;
  output : string;
  model : string;
  prompt : string;
  input_dir : string;
  max_files : Z
}.

(** What [main] reads from its surroundings: the credential as
    [os.getenv] gives it after [load_dotenv], and the text files. *)
Record cli_env : Type := {
  api_key : option string;
  text_files : gmap string text
}.

(** What [main] leaves behind: the lines it printed to standard error and
    its return, an exit code or an exception it let through. *)
Record cli_outcome : Type := {
  stderr : list string;
  result : res Z
}.

(** [raise SystemExit(main(sys.argv[1:]))]: the returned integer is the
    exit status; an exception [main] lets through ends the process with
    a traceback and status 1. *)
Definition exit_status (o : cli_outcome) : Z :=
  match result o with
  | Ret code => code
  | Raise _ => 1
  end.

Section CommandLine.

(** [(Path(p) if os.path.isabs(p) else base_dir / p).resolve()] *)
Variable resolve : string -> string.

(** The rest of [main], from the collection of the input paths on: the
    upload, the model call and the write of the output. *)
Variable extract : text -> text -> cli_args -> cli_env -> cli_outcome.

Definition main (args : cli_args) (env : cli_env) : cli_outcome :=
  match api_key env with
  | None | Some "" =>
      {| stderr := ["ERROR: OPENAI_API_KEY is not set (set in environment or in a .env file)"];
         result := Ret 2 |}
  | Some _ =>
      let prompt_path := resolve (prompt args) in
      match read_prompts_from_markdown (text_files env) prompt_path with
      | Raise e => {| stderr := []; result := Raise e |}
      | Ret (system_prompt, user_prompt) => extract system_prompt user_prompt args env
      end
  end.

End CommandLine.

(** A run with the credential set and no prompt file. *)
Definition default_args : cli_args :=
  {| files := []; output := "labs.json"; model := "gpt-4.1";
     prompt := "ai-prompt.md"; input_dir := "input_files"; max_files := 0 |}.

Definition env_without_prompt : cli_env :=
  {| api_key := Some "sk-test"; text_files := ∅ |}.


(** ** Paths and the file system of the server *)

(** An absolute path as [pathlib] holds it: its names from the root down,
    a [..] among them kept as it was written. There are no symbolic
    links in this model. *)
Abbreviation path := (list string).

Fixpoint split_at (sep : ascii) (s : string) : list string :=
  match s with
  | EmptyString => [EmptyString]
  | String c rest =>
      if Ascii.eqb c sep then EmptyString :: split_at sep rest
      else match split_at sep rest with
           | [] => [String c EmptyString]
           | name :: names => String c name :: names
           end
  end.

(** The names of a path string; [pathlib] drops empty names and [.]. *)
Definition path_parts (s : string) : path :=
  filter (fun name => name <> "" /\ name <> ".") (split_at "/" s).

(** [p / s]: an absolute [s] replaces [p]. The join is that of names:
    a [..] stays in the path until [resolve_path] or the file system
    interprets it. *)
Definition path_join (p : path) (s : string) : path :=
  if Stdlib.Strings.String.prefix "/" s then path_parts s else p ++ path_parts s.

(** [p.resolve()]: every [..] takes away the name before it, and is
    dropped at the root. *)
Fixpoint resolve_from (done names : path) : path :=
  match names with
  | [] => done
  | name :: rest =>
      if decide (name = "..") then resolve_from (removelast done) rest
      else resolve_from (done ++ [name])%list rest
  end.

Definition resolve_path (p : path) : path := resolve_from [] p.

(** [p.parent], [p.name] and [str(p)] *)
Definition path_parent (p : path) : path := removelast p.

Definition path_name (p : path) : string := default "" (last p).

Definition path_str (p : path) : string :=
  match p with
  | [] => "/"
  | _ => "/" ++ Stdlib.Strings.String.concat "/" p
  end.

(** [s.startswith(t)] *)
Definition startswith (s t : string) : bool := Stdlib.Strings.String.prefix t s.

Record filesystem : Type := {
  dirs : gset path;
  contents : gmap path text
}.

Definition is_dir (p : path) (fs : filesystem) : bool :=
  bool_decide (p = []) || bool_decide (p ∈ dirs fs).

Definition is_file (p : path) (fs : filesystem) : bool :=
  bool_decide (is_Some (contents fs !! p)).

(** [p.exists()] for a path without [..]. *)
Definition path_exists (p : path) (fs : filesystem) : bool :=
  is_dir p fs || is_file p fs.

(** The place the file system reaches by following [names] from the
    directory [cur]: a [..] leads to the parent, and every name but the
    last must lead to a directory. *)
Fixpoint locate_from (fs : filesystem) (cur : path) (names : path) : res path :=
  match names with
  | [] => Ret cur
  | name :: rest =>
      let next := if decide (name = "..") then removelast cur else (cur ++ [name])%list in
      match rest with
      | [] => Ret next
      | _ :: _ =>
          if is_dir next fs then locate_from fs next rest
          else if is_file next fs then Raise NotADirectoryError
          else Raise FileNotFoundError
      end
  end.

(** A name with the NUL character in it: the operating system is not
    asked about a path that holds one, the call raises [ValueError]. *)
Definition has_nul (name : string) : bool :=
  existsb (Ascii.eqb Ascii.zero) (list_ascii_of_string name).

Definition locate (fs : filesystem) (p : path) : res path :=
  if existsb has_nul p then Raise ValueError else locate_from fs [] p.

(** [p.exists()] for any path: false when the place cannot be reached or
    the call raises. *)
Definition os_exists (p : path) (fs : filesystem) : bool :=
  match locate fs p with
  | Ret q => path_exists q fs
  | Raise _ => false
  end.


(** The path itself and the directories above it, the root left out. *)
Definition ancestors (p : path) : list path :=
  (fun n => take n p) <$> seq 1 (length p).

(** [p.mkdir(parents=True, exist_ok=True)] for a path without [..]: it
    fails when [p] or a directory above it is a regular file. *)
Definition mkdir_parents (p : path) (fs : filesystem) : res unit * filesystem :=
  if existsb (fun q => is_file q fs) (ancestors p)
  then (Raise (if is_file p fs then FileExistsError else NotADirectoryError), fs)
  else (Ret tt, {| dirs := dirs fs ∪ list_to_set (ancestors p); contents := contents fs |}).

(** [with dest.open("wb") as out: shutil.copyfileobj(src, out)]: the
    file is written at the place [dest] leads to, unless that place is a
    directory. *)
Definition write_file (dest : path) (data : text) (fs : filesystem)
  : res unit * filesystem :=
  match locate fs dest with
  | Raise e => (Raise e, fs)
  | Ret q =>
      if is_dir q fs || bool_decide (last dest = Some "..")
      then (Raise IsADirectoryError, fs)
      else (Ret tt, {| dirs := dirs fs; contents := <[q := data]> (contents fs) |})
  end.

(** The directory [q] with everything in it removed, and the disk without
    the directory [q]. *)
Definition emptied (q : path) (fs : filesystem) : filesystem :=
  {| dirs := filter (fun d => d = q \/ ~ q `prefix_of` d) (dirs fs);
     contents := filter (fun e => ~ q `prefix_of` e.1) (contents fs) |}.

Definition without_dir (q : path) (fs : filesystem) : filesystem :=
  {| dirs := dirs fs ∖ {[ q ]}; contents := contents fs |}.

(** [shutil.rmtree(p)]: what is in the directory [p] leads to goes first;
    then [os.rmdir(p)] follows [p] again, and fails when [p] ends with
    [..], when it is the root, or when a directory on its way was in the
    tree just removed. *)
Definition rmtree (p : path) (fs : filesystem) : res unit * filesystem :=
  match locate fs p with
  | Raise e => (Raise e, fs)
  | Ret q =>
      if is_dir q fs then
        let fs1 := emptied q fs in
        if bool_decide (last p = Some "..") || bool_decide (q = [])
        then (Raise OSError, fs1)
        else match locate fs1 p with
             | Ret _ => (Ret tt, without_dir q fs1)
             | Raise e => (Raise e, fs1)
             end
      else if is_file q fs then (Raise NotADirectoryError, fs)
      else (Raise FileNotFoundError, fs)
  end.

(** ** File classification *)

(** [s.lower()] on the letters A to Z. Outside ASCII only U+0130 and
    U+212A lower to something with an ASCII letter in it (an [i] followed
    by a combining dot, and [k]), neither of which can complete one of the
    extensions below, so the tests on the lowered suffix are those of the
    program. *)
Definition lower_ascii (c : ascii) : ascii :=
  let n := nat_of_ascii c in
  if (65 <=? n)%nat && (n <=? 90)%nat then ascii_of_nat (n + 32) else c.

Fixpoint lower (s : string) : string :=
  match s with
  | EmptyString => EmptyString
  | String c rest => String (lower_ascii c) (lower rest)
  end.

(** [name.rfind(".")], with [None] for -1. *)
Fixpoint rfind_dot (s : string) : option nat :=
  match s with
  | EmptyString => None
  | String c rest =>
      match rfind_dot rest with
      | Some i => Some (S i)
      | None => if Ascii.eqb c "." then Some 0%nat else None
      end
  end.

(** The suffix of a file name: from its last dot on, when that dot is
    neither the first nor the last character. *)
Definition name_suffix (name : string) : string :=
  match rfind_dot name with
  | Some i =>
      if (0 <? i)%nat && (i <? String.length name - 1)%nat
      then substring i (String.length name - i) name
      else ""
  | None => ""
  end.

(** [path.suffix] *)
Definition suffix (p : path) : string := name_suffix (path_name p).

Definition image_suffixes : list string :=
  [".png"; ".jpg"; ".jpeg"; ".webp"; ".gif"; ".bmp"; ".tif"; ".tiff"; ".heic"].

Definition is_image_file (p : path) : bool :=
  bool_decide (lower (suffix p) ∈ image_suffixes).

Definition is_pdf_file (p : path) : bool :=
  bool_decide (lower (suffix p) = ".pdf").

(** The three lists [main] makes of its input paths: images, PDFs and
    the others, the last by membership in the first two. *)
Definition image_paths_of (input_paths : list path) : list path :=
  filter (fun p => is_image_file p) input_paths.

Definition pdf_paths_of (input_paths : list path) : list path :=
  filter (fun p => is_pdf_file p) input_paths.

Definition other_paths_of (input_paths : list path) : list path :=
  filter (fun p => (p ∉ image_paths_of input_paths) /\ (p ∉ pdf_paths_of input_paths))
    input_paths.



(** ** The entries of a directory *)

(** The order of [Path] objects: that of their lists of names. *)
Fixpoint path_leb (p q : path) : bool :=
  match p, q with
  | [], _ => true
  | _ :: _, [] => false
  | a :: p', b :: q' =>
      if Stdlib.Strings.String.eqb a b then path_leb p' q'
      else Stdlib.Strings.String.ltb a b
  end.

Definition path_le (p q : path) : Prop := Is_true (path_leb p q).

(** [sorted(d.iterdir())] for a directory [d]: the entries directly in
    it. *)
Definition sorted_iterdir (fs : filesystem) (d : path) : list path :=
  merge_sort (fun p q => Is_true (path_leb p q))
    (filter (fun q => q <> [] /\ path_parent q = d)
       (elements (dirs fs ∪ dom (contents fs)))).

(** [sorted(d.iterdir())] and [os.listdir(d)] raise when [d] is not a
    directory. *)
Definition iterdir (fs : filesystem) (d : path) : res (list path) :=
  if is_dir d fs then Ret (sorted_iterdir fs d)
  else if is_file d fs then Raise NotADirectoryError
  else Raise FileNotFoundError.


(** ** The server: uploads and their cleanup *)

Record upload : Type := {
  filename : string;
  file : text
}.

Record ingest_form : Type := {
  form_files : list upload;
  form_model : string;
  form_prompt : string;
  form_use_sample : bool
}.

(** The credential and the identifier [str(uuid.uuid4())] of the
    request: hexadecimal digits and dashes. *)
Record server_env : Type := {
  server_api_key : option string;
  fresh_uuid : string
}.

Section Server.

(** The directory of the code, resolved when the module is loaded: no
    [..] in it. *)
Variable BASE_DIR : path.

(** [_process_paths]: the pipeline, model call included. *)
Variable _process_paths :
  list path -> string -> path -> filesystem -> res pyval * filesystem.

(** [JSONResponse(content=data)]: the body that is sent, or the
    [ValueError] of a value JSON cannot carry (a NaN, an infinity). *)
Variable JSONResponse : pyval -> res pyval.

Definition scratch_root : path := path_join BASE_DIR "tmp_uploads".

Definition DEFAULT_INPUT_DIR : path := path_join BASE_DIR "input_files".

(** The loop of [_save_uploads_to_temp]. *)
Fixpoint save_uploads (tmp_dir : path) (upload_files : list upload)
    (saved_paths : list path) (fs : filesystem) : res (list path) * filesystem :=
  match upload_files with
  | [] => (Ret saved_paths, fs)
  | uf :: rest =>
      let dest := path_join tmp_dir (filename uf) in
      match write_file dest (file uf) fs with
      | (Ret _, fs') => save_uploads tmp_dir rest (saved_paths ++ [dest]) fs'
      | (Raise e, fs') => (Raise e, fs')
      end
  end.

Definition _save_uploads_to_temp (uuid : string) (upload_files : list upload)
    (fs : filesystem) : res (list path) * filesystem :=
  let tmp_dir := path_join scratch_root uuid in
  match mkdir_parents tmp_dir fs with
  | (Ret _, fs') => save_uploads tmp_dir upload_files [] fs'
  | (Raise e, fs') => (Raise e, fs')
  end.

(** Exceptions of the removal are swallowed. *)
Definition _cleanup_paths (paths : list path) (fs : filesystem) : filesystem :=
  match paths with
  | [] => fs
  | first :: _ =>
      let parent := path_parent first in
      if bool_decide (path_name parent <> "tmp_uploads") then
        if os_exists parent fs && startswith (path_str parent) (path_str scratch_root)
        then snd (rmtree parent fs)
        else fs
      else fs
  end.

(** The test of the [elif]: [use_sample], or a sample directory that
    exists and holds a regular file; [os.listdir] raises on a sample
    directory that is a regular file. *)
Definition sample_wanted (form : ingest_form) (fs : filesystem) : res bool :=
  if form_use_sample form then Ret true
  else if negb (path_exists DEFAULT_INPUT_DIR fs) then Ret false
  else
    let* names := iterdir fs DEFAULT_INPUT_DIR in
    Ret (existsb (fun p => is_file p fs) names).

(** The [try] block of [ingest_labs]: its outcome, the value of
    [saved_paths] when the block is left, and the file system. *)
Definition ingest_try (form : ingest_form) (env : server_env) (prompt_path : path)
    (fs : filesystem) : res pyval * list path * filesystem :=
  let process (saved_paths : list path) (fs1 : filesystem) :=
    match saved_paths with
    | [] => (Raise (HTTPException 400), saved_paths, fs1)
    | _ =>
        let (r, fs2) := _process_paths saved_paths (form_model form) prompt_path fs1 in
        (let* data := r in JSONResponse data, saved_paths, fs2)
    end in
  match form_files form with
  | _ :: _ =>
      match _save_uploads_to_temp (fresh_uuid env) (form_files form) fs with
      | (Ret saved_paths, fs1) => process saved_paths fs1
      | (Raise e, fs1) => (Raise e, [], fs1)
      end
  | [] =>
      match sample_wanted form fs with
      | Raise e => (Raise e, [], fs)
      | Ret false => (Raise (HTTPException 400), [], fs)
      | Ret true =>
          match iterdir fs DEFAULT_INPUT_DIR with
          | Raise e => (Raise e, [], fs)
          | Ret entries =>
              process
                (filter (fun p => is_file p fs && (is_image_file p || is_pdf_file p))
                   entries) fs
          end
      end
  end.

Definition ingest_labs (form : ingest_form) (env : server_env) (fs : filesystem)
    : res pyval * filesystem :=
  match server_api_key env with
  | None | Some "" => (Raise (HTTPException 500), fs)
  | Some _ =>
      let prompt_path :=
        if Stdlib.Strings.String.prefix "/" (form_prompt form)
        then path_parts (form_prompt form)
        else resolve_path (path_join BASE_DIR (form_prompt form)) in
      if negb (os_exists prompt_path fs) then (Raise (HTTPException 400), fs)
      else
        let '(r, saved_paths, fs1) := ingest_try form env prompt_path fs in
        match form_files form, saved_paths with
        | _ :: _, _ :: _ => (r, _cleanup_paths saved_paths fs1)
        | _, _ => (r, fs1)
        end
  end.

End Server.

(** A server under [/srv] with its prompt file, and two requests: one
    whose file name names a directory that does not exist, one with a
    plain file name. *)
Definition srv : path := ["srv"].

Definition srv_disk : filesystem :=
  {| dirs := {[ ["srv"] ]};
     contents := {[ ["srv"; "ai-prompt.md"] := sample_prompt ]} |}.

Definition srv_env : server_env :=
  {| server_api_key := Some "sk-test"; fresh_uuid := "u1" |}.

Definition form_with (name : string) : ingest_form :=
  {| form_files := [ {| filename := name; file := text_of "%PDF" |} ];
     form_model := "gpt-4.1"; form_prompt := "ai-prompt.md";
     form_use_sample := false |}.

(** A disk with a directory beside the scratch root whose name starts
    like it. *)
Definition sibling_disk : filesystem :=
  {| dirs := {[ ["srv"]; ["srv"; "tmp_uploads"]; ["srv"; "tmp_uploads_old"] ]};
     contents := {[ ["srv"; "tmp_uploads_old"; "x.pdf"] := text_of "%PDF" ]} |}.

(** The same disk once the scratch directory of request [u1] exists. *)
Definition sibling_disk_u1 : filesystem :=
  {| dirs := {[ ["srv"]; ["srv"; "tmp_uploads"]; ["srv"; "tmp_uploads"; "u1"];
                ["srv"; "tmp_uploads_old"] ]};
     contents := {[ ["srv"; "tmp_uploads_old"; "x.pdf"] := text_of "%PDF" ]} |}.


(** ** The pipeline shared by the command line and the server *)

(** [p.read_bytes()] and [p.open("rb")]: the content of the regular file
    [p] leads to. *)
Definition read_bytes (fs : filesystem) (p : path) : res text :=
  let* q := locate fs p in
  if is_dir q fs then Raise IsADirectoryError
  else match contents fs !! q with
       | Some data => Ret data
       | None => Raise FileNotFoundError
       end.

(** [read_prompts_from_markdown] on a path of this file system. *)
Definition read_prompts_at (fs : filesystem) (prompt_path : path) : res (text * text) :=
  let* content := read_bytes fs prompt_path in
  parse_prompts content.

Section Pipeline.

(** The libraries and the vendor: [mimetypes.guess_type], base64, the
    upload of one file (its identifier, or a raise), the model call with
    the decoding of its response, [json.loads] ([None] for a
    [JSONDecodeError]) and [json.dumps]. *)
Variable guess_type : string -> option string.
Variable b64encode : text -> string.
Variable files_create : path -> text -> res string.
Variable call_model : string -> text -> text -> list string -> list string -> res string.
Variable json_loads : string -> option pyval.
Variable json_dumps : pyval -> text.

Definition encode_image_to_data_uri (fs : filesystem) (p : path) : res string :=
  let mime :=
    match guess_type (path_str p) with
    | None | Some "" => "application/octet-stream"
    | Some m => m
    end in
  let* data := read_bytes fs p in
  Ret ("data:" ++ mime ++ ";base64," ++ b64encode data).

Definition upload_pdfs_for_retrieval (fs : filesystem) (pdf_paths : list path)
  : res (list string) :=
  for_each (fun pdf => let* f := read_bytes fs pdf in files_create pdf f) pdf_paths.

(** [json.loads(output_text)], or the text under [raw]. *)
Definition decode_output (output_text : string) : pyval :=
  match json_loads output_text with
  | Some data => data
  | None => PDict (<["raw" := PStr output_text]> ∅)
  end.

(** The guarded post-processing: a [data] that is not a dict, or a
    normalization that raises, leaves [data] as it is. *)
Definition postprocess (data : pyval) (pdf_paths : list path) : pyval :=
  let pdf_names := path_name <$> pdf_paths in
  match data with
  | PDict _ =>
      match normalize_flags_and_context data pdf_names with
      | Ret data' => data'
      | Raise _ => data
      end
  | _ => data
  end.

(** The steps from the encoding of the images to the model's answer, in
    the order of [main]: the prompts are already read. *)
Definition ask_model (fs : filesystem) (input_paths : list path) (model : string)
    (system_prompt user_prompt : text) : res string :=
  let* image_uris :=
    for_each (encode_image_to_data_uri fs) (image_paths_of input_paths) in
  let* pdf_file_ids :=
    match pdf_paths_of input_paths with
    | [] => Ret []
    | pdf_paths => upload_pdfs_for_retrieval fs pdf_paths
    end in
  call_model model system_prompt user_prompt image_uris pdf_file_ids.

(** [_process_paths] of the server: here the prompts are read after the
    uploads, and a failing write of the output is swallowed. *)
Definition _process_paths (output_path : option path) (input_paths : list path)
    (model : string) (prompt_path : path) (fs : filesystem)
  : res pyval * filesystem :=
  let answer :=
    let* image_uris :=
      for_each (encode_image_to_data_uri fs) (image_paths_of input_paths) in
    let* pdf_file_ids :=
      match pdf_paths_of input_paths with
      | [] => Ret []
      | pdf_paths => upload_pdfs_for_retrieval fs pdf_paths
      end in
    let* prompts := read_prompts_at fs prompt_path in
    call_model model prompts.1 prompts.2 image_uris pdf_file_ids in
  match answer with
  | Raise e => (Raise e, fs)
  | Ret output_text =>
      let data := postprocess (decode_output output_text) (pdf_paths_of input_paths) in
      match output_path with
      | Some out => (Ret data, (write_file out (json_dumps data ++ [10%N]) fs).2)
      | None => (Ret data, fs)
      end
  end.

(** ** The command line after the prompts are read *)

(** The input paths, or the line printed before [return 2]. *)
Fixpoint explicit_inputs (cwd : path) (fs : filesystem) (names : list string)
  : string + list path :=
  match names with
  | [] => inr []
  | f :: rest =>
      let p := resolve_path (path_join cwd f) in
      if negb (path_exists p fs) || negb (is_file p fs)
      then inl ("ERROR: File not found: " ++ path_str p)
      else match explicit_inputs cwd fs rest with
           | inl err => inl err
           | inr paths => inr (p :: paths)
           end
  end.

Definition scanned_inputs (cwd : path) (fs : filesystem) (dir : string)
  : string + list path :=
  let input_dir := resolve_path (path_join cwd dir) in
  if negb (path_exists input_dir fs) || negb (is_dir input_dir fs)
  then inl ("ERROR: Input directory not found: " ++ path_str input_dir)
  else
    match filter (fun p => is_file p fs && (is_image_file p || is_pdf_file p))
            (sorted_iterdir fs input_dir) with
    | [] => inl ("ERROR: No supported files found in directory: " ++ path_str input_dir)
    | input_paths => inr input_paths
    end.

Definition collect_inputs (cwd : path) (fs : filesystem) (args : cli_args)
  : string + list path :=
  match files args with
  | [] => scanned_inputs cwd fs (input_dir args)
  | names => explicit_inputs cwd fs names
  end.

(** [input_paths[: args.max_files]] under its guard. *)
Definition limit_inputs (max_files : Z) (input_paths : list path) : list path :=
  if negb (max_files =? 0)%Z && (0 <? max_files)%Z
  then take (Z.to_nat max_files) input_paths
  else input_paths.

Definition unsupported_warning (other : list path) : list string :=
  match other with
  | [] => []
  | _ => ["WARNING: Ignoring unsupported file types: "
            ++ Stdlib.Strings.String.concat ", " (path_str <$> other)]
  end.

(** The rest of [main] with the disk it leaves. Here the write of the
    output is not guarded. *)
Definition main_rest (cwd : path) (fs : filesystem)
    (system_prompt user_prompt : text) (args : cli_args)
  : cli_outcome * filesystem :=
  match collect_inputs cwd fs args with
  | inl err => ({| stderr := [err]; result := Ret 2 |}, fs)
  | inr found =>
      let input_paths := limit_inputs (max_files args) found in
      let warnings := unsupported_warning (other_paths_of input_paths) in
      match ask_model fs input_paths (model args) system_prompt user_prompt with
      | Raise e => ({| stderr := warnings; result := Raise e |}, fs)
      | Ret output_text =>
          let data := postprocess (decode_output output_text) (pdf_paths_of input_paths) in
          let output_path := resolve_path (path_join cwd (output args)) in
          match write_file output_path (json_dumps data ++ [10%N]) fs with
          | (Ret _, fs') => ({| stderr := warnings; result := Ret 0 |}, fs')
          | (Raise e, fs') => ({| stderr := warnings; result := Raise e |}, fs')
          end
      end
  end.

End Pipeline.



(** ** Vocabulary of the upload and pipeline properties *)





(** The disk of the server with a sample directory that holds a PDF and
    a note. *)
Definition sample_disk : filesystem :=
  {| dirs := {[ ["srv"]; ["srv"; "input_files"] ]};
     contents := {[ ["srv"; "ai-prompt.md"] := sample_prompt;
                    ["srv"; "input_files"; "a.pdf"] := text_of "%PDF";
                    ["srv"; "input_files"; "notes.txt"] := text_of "note" ]} |}.

(** A disk with a prompt file, an input directory holding a PDF, an image,
    a text file and a sub-directory. *)
Definition pipeline_disk : filesystem :=
  {| dirs := {[ ["srv"]; ["srv"; "in"]; ["srv"; "in"; "old.pdf"] ]};
     contents := {[ ["srv"; "ai-prompt.md"] := sample_prompt;
                    ["srv"; "in"; "b.pdf"] := text_of "%PDF";
                    ["srv"; "in"; "a.png"] := text_of "PNG";
                    ["srv"; "in"; "notes.txt"] := text_of "note" ]} |}.

(* ================================================================== *)
(** * Properties *)

(** ** Dictionary reads *)

Lemma dict_get_Some (m : gmap string pyval) (k : string) (v : pyval) :
  m !! k = Some v -> dict_get m k = v.
Proof. unfold dict_get. intros ->. reflexivity. Qed.

Lemma dict_get_None (m : gmap string pyval) (k : string) :
  m !! k = None -> dict_get m k = PNone.
Proof. unfold dict_get. intros ->. reflexivity. Qed.

Lemma in_none_empty_spec (m : gmap string pyval) (k : string) :
  in_none_empty (dict_get m k) = true <-> missing_or_empty m k.
Proof.
  unfold missing_or_empty, dict_get.
  destruct (m !! k) as [v|] eqn:E; simpl.
  - destruct v; simpl; try (split; [discriminate | intros [?|[?|?]]; discriminate]).
    + split; auto.
    + destruct (decide (s = "")) as [->|Hs].
      * split; auto.
      * split; [discriminate|]. intros [?|[?|H]]; try discriminate.
        inversion H. contradiction.
  - split; auto.
Qed.

Lemma isinstance_spec (m : gmap string pyval) (k : string) :
  isinstance_int_float (dict_get m k) = true <-> exists x, numeric_field m k x.
Proof.
  unfold isinstance_int_float, numeric_field, dict_get.
  destruct (m !! k) as [v|]; simpl.
  - destruct (num_of v) as [x|] eqn:E.
    + split; [|reflexivity]. intros _. exists x, v. auto.
    + split; [discriminate|]. intros (x & v' & Hv & Hx).
      inversion Hv; subst. congruence.
  - split; [discriminate|]. intros (x & v' & Hv & _). discriminate.
Qed.

Lemma numeric_field_get (m : gmap string pyval) (k : string) (x : xnum) :
  numeric_field m k x -> num_of (dict_get m k) = Some x.
Proof. intros (v & Hv & Hx). rewrite (dict_get_Some _ _ _ Hv). exact Hx. Qed.

(** ** One lab entry *)

(** The guard of the loop body holds exactly on the inferable entries. *)
Lemma guard_spec (m : gmap string pyval) :
  in_none_empty (dict_get m "flag") && isinstance_int_float (dict_get m "value")
    && isinstance_int_float (dict_get m "ref_low")
    && isinstance_int_float (dict_get m "ref_high")
    && in_none_empty (dict_get m "qualifier") = true
  <-> inferable m.
Proof.
  unfold inferable.
  rewrite !andb_true_iff, !in_none_empty_spec, !isinstance_spec. tauto.
Qed.

Lemma normalize_lab_inferable (m : gmap string pyval) (xv xl xh : xnum) :
  missing_or_empty m "flag" -> missing_or_empty m "qualifier" ->
  numeric_field m "value" xv -> numeric_field m "ref_low" xl ->
  numeric_field m "ref_high" xh ->
  normalize_lab (PDict m) = Ret (PDict (<["flag" := PStr (range_flag xv xl xh)]> m)).
Proof.
  intros Hf Hq Hv Hl Hh. unfold normalize_lab.
  assert (G : inferable m) by (unfold inferable; eauto 10).
  apply guard_spec in G. rewrite G.
  unfold py_lt, py_gt, range_flag.
  rewrite (numeric_field_get _ _ _ Hv), (numeric_field_get _ _ _ Hl),
    (numeric_field_get _ _ _ Hh). simpl.
  destruct (xlt xv xl); simpl; [reflexivity|].
  destruct (xlt xh xv); reflexivity.
Qed.

Lemma normalize_lab_skip (lab : pyval) :
  (forall m, lab = PDict m -> ~ inferable m) -> normalize_lab lab = Ret lab.
Proof.
  intros H. destruct lab; try reflexivity. simpl.
  specialize (H m eq_refl). rewrite <- guard_spec in H.
  destruct (_ && _); [exfalso; auto | reflexivity].
Qed.

(** Whatever the entry, the loop body returns: either the entry itself or
    the entry with a flag among L, H and N. *)
Lemma normalize_lab_cases (lab : pyval) :
  normalize_lab lab = Ret lab \/
  exists m f, lab = PDict m /\ inferable m /\ (f = "L" \/ f = "H" \/ f = "N") /\
    normalize_lab lab = Ret (PDict (<["flag" := PStr f]> m)).
Proof.
  destruct lab; try (left; reflexivity).
  destruct (decide (in_none_empty (dict_get m "flag") && isinstance_int_float (dict_get m "value")
    && isinstance_int_float (dict_get m "ref_low")
    && isinstance_int_float (dict_get m "ref_high")
    && in_none_empty (dict_get m "qualifier") = true)) as [G|G].
  - right. pose proof (proj1 (guard_spec m) G) as I.
    destruct I as (Hf & Hq & [xv Hv] & [xl Hl] & [xh Hh]).
    exists m, (range_flag xv xl xh). repeat split; eauto 10.
    + unfold range_flag. destruct (xlt xv xl); auto. destruct (xlt xh xv); auto.
    + apply normalize_lab_inferable; assumption.
  - left. apply normalize_lab_skip. intros m' Hm I. inversion Hm; subst m'. apply G, guard_spec, I.
Qed.

Lemma normalize_lab_returns (lab : pyval) :
  exists lab', normalize_lab lab = Ret lab'.
Proof.
  destruct (normalize_lab_cases lab) as [H|(m & f & _ & _ & _ & H)]; eauto.
Qed.

Lemma normalize_lab_idem (lab lab' : pyval) :
  normalize_lab lab = Ret lab' -> normalize_lab lab' = Ret lab'.
Proof.
  intros H.
  destruct (normalize_lab_cases lab) as [E|(m & f & -> & _ & Hf & E)];
    rewrite E in H; inversion H; subst; [assumption|].
  apply normalize_lab_skip. intros m' Hm'. inversion Hm'; subst m'. intros (Hm & _).
  unfold missing_or_empty in Hm. rewrite lookup_insert_eq in Hm.
  destruct Hm as [?|[?|Hm]]; try discriminate.
  inversion Hm. destruct Hf as [-> | [-> | ->]]; discriminate.
Qed.

Lemma normalize_lab_frame (lab lab' : pyval) :
  normalize_lab lab = Ret lab' -> same_but_flag lab lab'.
Proof.
  intros H.
  destruct (normalize_lab_cases lab) as [E|(m & f & -> & _ & _ & E)];
    rewrite E in H; inversion H; subst.
  - left. reflexivity.
  - right. exists m, (<["flag" := PStr f]> m). repeat split.
    intros k Hk. apply lookup_insert_ne. congruence.
Qed.

(** ** The loop over the entries *)

Lemma for_each_returns {A B : Type} (f : A -> res B) (l : list A) :
  (forall a, exists b, f a = Ret b) -> exists l', for_each f l = Ret l'.
Proof.
  intros Hf. induction l as [|a l IH]; simpl.
  - eauto.
  - destruct (Hf a) as [b ->]. destruct IH as [l' ->]. simpl. eauto.
Qed.

Lemma for_each_inv {A B : Type} (f : A -> res B) (a : A) (l : list A) (r : list B) :
  for_each f (a :: l) = Ret r ->
  exists b l', r = b :: l' /\ f a = Ret b /\ for_each f l = Ret l'.
Proof.
  simpl. destruct (f a) as [b|e]; simpl; [|discriminate].
  destruct (for_each f l) as [l'|e]; simpl; [|discriminate].
  intros H. inversion H. eauto.
Qed.

Lemma for_each_length {A B : Type} (f : A -> res B) (l : list A) (l' : list B) :
  for_each f l = Ret l' -> length l' = length l.
Proof.
  revert l'. induction l as [|a l IH]; intros l' H.
  - inversion H. reflexivity.
  - apply for_each_inv in H as (b & t & -> & _ & Ht). simpl. f_equal. auto.
Qed.

Lemma for_each_lookup {A B : Type} (f : A -> res B) (l : list A) (l' : list B) :
  for_each f l = Ret l' ->
  forall (i : nat) (a : A), l !! i = Some a -> exists b, l' !! i = Some b /\ f a = Ret b.
Proof.
  revert l'. induction l as [|x l IH]; intros l' H i a Hi.
  - destruct i; discriminate.
  - apply for_each_inv in H as (b & t & -> & Hb & Ht).
    destruct i as [|i]; simpl in *.
    + inversion Hi; subst. eauto.
    + eapply IH; eauto.
Qed.

Lemma for_each_settled {A : Type} (f : A -> res A) (l l' : list A) :
  (forall a b, f a = Ret b -> f b = Ret b) ->
  for_each f l = Ret l' -> for_each f l' = Ret l'.
Proof.
  intros Hf. revert l'. induction l as [|x l IH]; intros l' H.
  - inversion H. reflexivity.
  - apply for_each_inv in H as (b & t & -> & Hb & Ht).
    simpl. rewrite (Hf _ _ Hb). simpl. rewrite (IH _ Ht). reflexivity.
Qed.

(** ** [context] and [report_ids] *)

Lemma set_report_ids_context (d : gmap string pyval) (pdf_names : list string) :
  exists c, set_report_ids d pdf_names !! "context" = Some (PDict c) /\
    c !! "report_ids" = Some (PList (PStr <$> pdf_names)) /\
    (forall c0, d !! "context" = Some (PDict c0) ->
       c = <["report_ids" := PList (PStr <$> pdf_names)]> c0) /\
    ((forall c0, d !! "context" <> Some (PDict c0)) ->
       c = <["report_ids" := PList (PStr <$> pdf_names)]> ∅).
Proof.
  unfold set_report_ids, dict_get.
  destruct (d !! "context") as [v|] eqn:E; simpl.
  2: { eexists. rewrite lookup_insert_eq. split; [reflexivity|].
       rewrite lookup_insert_eq. repeat split; auto. discriminate. }
  destruct v;
    try (eexists; rewrite lookup_insert_eq; split; [reflexivity|];
         rewrite lookup_insert_eq; repeat split; auto; discriminate).
  eexists. rewrite lookup_insert_eq. split; [reflexivity|].
  rewrite lookup_insert_eq. repeat split.
  - intros c0 H. inversion H. reflexivity.
  - intros H. exfalso. eapply H. reflexivity.
Qed.

Lemma set_report_ids_other (d : gmap string pyval) (pdf_names : list string) (k : string) :
  k <> "context" -> set_report_ids d pdf_names !! k = d !! k.
Proof.
  intros Hk. unfold set_report_ids.
  destruct (dict_get d "context"); apply lookup_insert_ne; congruence.
Qed.

Lemma set_report_ids_settled (r c : gmap string pyval) (pdf_names : list string) :
  r !! "context" = Some (PDict c) ->
  c !! "report_ids" = Some (PList (PStr <$> pdf_names)) ->
  set_report_ids r pdf_names = r.
Proof.
  intros Hr Hc. unfold set_report_ids. rewrite (dict_get_Some _ _ _ Hr).
  rewrite (insert_id c _ _ Hc). apply insert_id, Hr.
Qed.

(** ** The whole function, by the shape of [labs] *)

Lemma normalize_with_labs (d : gmap string pyval) (pdf_names : list string)
    (labs : list pyval) :
  d !! "labs" = Some (PList labs) ->
  exists labs', for_each normalize_lab labs = Ret labs' /\
    normalize_flags_and_context (PDict d) pdf_names
    = Ret (PDict (<["labs" := PList labs']> (set_report_ids d pdf_names))).
Proof.
  intros H. destruct (for_each_returns normalize_lab labs normalize_lab_returns) as [labs' E].
  exists labs'. split; [exact E|]. simpl.
  assert (G : set_report_ids d pdf_names !! "labs" = Some (PList labs))
    by (rewrite set_report_ids_other by discriminate; exact H).
  rewrite (dict_get_Some _ _ _ G), E. reflexivity.
Qed.

Lemma normalize_without_labs (d : gmap string pyval) (pdf_names : list string) :
  (forall labs, d !! "labs" <> Some (PList labs)) ->
  normalize_flags_and_context (PDict d) pdf_names = Ret (PDict (set_report_ids d pdf_names)).
Proof.
  intros H. simpl.
  assert (G : set_report_ids d pdf_names !! "labs" = d !! "labs")
    by (apply set_report_ids_other; discriminate).
  unfold dict_get. rewrite G.
  destruct (d !! "labs") as [v|]; simpl; [|reflexivity].
  destruct v; try reflexivity. exfalso. eapply H. reflexivity.
Qed.

Lemma labs_shape (d : gmap string pyval) :
  (exists labs, d !! "labs" = Some (PList labs)) \/
  (forall labs, d !! "labs" <> Some (PList labs)).
Proof.
  destruct (d !! "labs") as [v|]; [|right; discriminate].
  destruct v; try (right; discriminate). left. eauto.
Qed.

(** ** Order on the numbers *)

Lemma xle_not_gt (a b : xnum) : xle a b = true -> xlt b a = false.
Proof.
  destruct a as [|[]|p], b as [|[]|q]; simpl; try discriminate; try reflexivity.
  unfold Qltb. intros ->. reflexivity.
Qed.

Lemma xle_trans (a b c : xnum) : xle a b = true -> xle b c = true -> xle a c = true.
Proof.
  destruct a as [|[]|p], b as [|[]|q], c as [|[]|r]; simpl;
    try discriminate; try reflexivity.
  rewrite !Qle_bool_iff. apply Qle_trans.
Qed.

(** With the bounds in order, a value equal to either of them is neither
    below the range nor above it. *)
Lemma boundary_in_range (xv xl xh : xnum) :
  xle xl xh = true -> xeq xv xl = true \/ xeq xv xh = true ->
  range_flag xv xl xh = "N".
Proof.
  unfold xeq, range_flag. intros Hlh [H|H]; apply andb_true_iff in H as [H1 H2].
  - rewrite (xle_not_gt _ _ H2), (xle_not_gt _ _ (xle_trans _ _ _ H1 Hlh)). reflexivity.
  - rewrite (xle_not_gt _ _ (xle_trans _ _ _ Hlh H2)), (xle_not_gt _ _ H1). reflexivity.
Qed.

(** ** Flag inference *)

Example flag_normal : normalize_lab (PDict (entry 5 4 10))
  = Ret (PDict (<["flag" := PStr "N"]> (entry 5 4 10))).
Proof. vm_compute. reflexivity. Qed.

Example flag_low : normalize_lab (PDict (entry 3 4 10))
  = Ret (PDict (<["flag" := PStr "L"]> (entry 3 4 10))).
Proof. vm_compute. reflexivity. Qed.

Example flag_high : normalize_lab (PDict (entry 12 4 10))
  = Ret (PDict (<["flag" := PStr "H"]> (entry 12 4 10))).
Proof. vm_compute. reflexivity. Qed.

Example flag_boundary : normalize_lab (PDict (entry 4 4 10))
  = Ret (PDict (<["flag" := PStr "N"]> (entry 4 4 10))).
Proof. vm_compute. reflexivity. Qed.

Example flag_kept : normalize_lab (PDict flagged_entry) = Ret (PDict flagged_entry).
Proof. vm_compute. reflexivity. Qed.

(** C1, as amended. For [data] whose [labs] is a list: the function returns,
    [labs] is still a list, and for every entry of it: when the entry is a
    mapping whose flag and qualifier are missing (absent or null) or empty
    and whose value, ref_low and ref_high are numbers (what
    [isinstance(_, (int, float))] accepts), the entry gets flag L when
    value < ref_low, else H when value > ref_high, else N; with
    ref_low <= ref_high a value equal to either bound gets N; any other
    entry is left as it is. *)
Theorem flag_inference (d : gmap string pyval) (pdf_names : list string)
    (labs : list pyval) :
  d !! "labs" = Some (PList labs) ->
  exists r labs',
    normalize_flags_and_context (PDict d) pdf_names = Ret (PDict r) /\
    r !! "labs" = Some (PList labs') /\
    forall (i : nat) (lab : pyval), labs !! i = Some lab ->
      (forall m xv xl xh, lab = PDict m ->
         missing_or_empty m "flag" -> missing_or_empty m "qualifier" ->
         numeric_field m "value" xv -> numeric_field m "ref_low" xl ->
         numeric_field m "ref_high" xh ->
         exists f, labs' !! i = Some (PDict (<["flag" := PStr f]> m)) /\
           (xlt xv xl = true -> f = "L") /\
           (xlt xv xl = false -> xlt xh xv = true -> f = "H") /\
           (xlt xv xl = false -> xlt xh xv = false -> f = "N") /\
           (xle xl xh = true -> xeq xv xl = true \/ xeq xv xh = true -> f = "N")) /\
      ((forall m, lab = PDict m -> ~ inferable m) -> labs' !! i = Some lab).
Proof.
  intros Hd.
  destruct (normalize_with_labs d pdf_names labs Hd) as (labs' & Hloop & Hrun).
  eexists. exists labs'. split; [exact Hrun|].
  split; [apply lookup_insert_eq|].
  intros i lab Hi.
  destruct (for_each_lookup _ _ _ Hloop i lab Hi) as (lab' & Hi' & Hlab).
  split.
  - intros m xv xl xh -> Hf Hq Hv Hl Hh.
    rewrite (normalize_lab_inferable m xv xl xh Hf Hq Hv Hl Hh) in Hlab.
    inversion Hlab; subst lab'. clear Hlab.
    exists (range_flag xv xl xh). split; [exact Hi'|].
    unfold range_flag. repeat split.
    + intros ->. reflexivity.
    + intros -> ->. reflexivity.
    + intros -> ->. reflexivity.
    + apply boundary_in_range.
  - intros Hno. rewrite (normalize_lab_skip lab Hno) in Hlab.
    inversion Hlab; subst lab'. exact Hi'.
Qed.

Lemma flag_inference_witness :
  with_labs [PDict (entry 3 4 10); PDict flagged_entry] !! "labs"
    = Some (PList [PDict (entry 3 4 10); PDict flagged_entry]) /\
  exists r labs',
    normalize_flags_and_context
      (PDict (with_labs [PDict (entry 3 4 10); PDict flagged_entry])) ["a.pdf"]
    = Ret (PDict r) /\
    r !! "labs" = Some (PList labs').
Proof.
  split; [reflexivity|].
  destruct (flag_inference (with_labs [PDict (entry 3 4 10); PDict flagged_entry])
              ["a.pdf"] [PDict (entry 3 4 10); PDict flagged_entry] eq_refl)
    as (r & labs' & H1 & H2 & _).
  exists r, labs'. split; assumption.
Defined.

(** C1 as stated fails on an inverted range: the entry with value 5,
    ref_low 5 and ref_high 1 meets every condition and its value equals
    ref_low, yet it is flagged H, not N. *)
Lemma boundary_on_inverted_range :
  inferable inverted_entry /\
  numeric_field inverted_entry "value" (XFin (inject_Z 5)) /\
  numeric_field inverted_entry "ref_low" (XFin (inject_Z 5)) /\
  xeq (XFin (inject_Z 5)) (XFin (inject_Z 5)) = true /\
  exists r m',
    normalize_flags_and_context (PDict (with_labs [PDict inverted_entry])) []
    = Ret (PDict r) /\
    r !! "labs" = Some (PList [PDict m']) /\
    m' !! "flag" = Some (PStr "H") /\ m' !! "flag" <> Some (PStr "N").
Proof.
  assert (V : forall k z, inverted_entry !! k = Some (PInt z) ->
              numeric_field inverted_entry k (XFin (inject_Z z))).
  { intros k z H. exists (PInt z). split; [exact H | reflexivity]. }
  repeat split.
  - left. reflexivity.
  - left. reflexivity.
  - eexists. apply (V "value" 5). reflexivity.
  - eexists. apply (V "ref_low" 5). reflexivity.
  - eexists. apply (V "ref_high" 1). reflexivity.
  - apply (V "value" 5). reflexivity.
  - apply (V "ref_low" 5). reflexivity.
  - exists (<["labs" := PList [PDict (<["flag" := PStr "H"]> inverted_entry)]]>
             (set_report_ids (with_labs [PDict inverted_entry]) [])),
      (<["flag" := PStr "H"]> inverted_entry).
    split; [vm_compute; reflexivity|].
    split; [reflexivity|]. split; [reflexivity | discriminate].
Qed.

(** ** [report_ids] *)

Lemma normalize_result (d : gmap string pyval) (pdf_names : list string) :
  exists r, normalize_flags_and_context (PDict d) pdf_names = Ret (PDict r) /\
    r !! "context" = set_report_ids d pdf_names !! "context" /\
    (forall k, k <> "labs" -> r !! k = set_report_ids d pdf_names !! k).
Proof.
  destruct (labs_shape d) as [[labs H]|H].
  - destruct (normalize_with_labs d pdf_names labs H) as (labs' & _ & ->).
    eexists. split; [reflexivity|].
    split; [|intros k Hk]; apply lookup_insert_ne; congruence.
  - rewrite (normalize_without_labs d pdf_names H). eauto.
Qed.

(** C2. Whatever [labs] holds, the result has a [context] mapping whose
    [report_ids] is the list of the given file names, in their order and
    with their repetitions; a [context] that was a mapping keeps its other
    keys, one that was absent or not a mapping is replaced by a mapping
    holding [report_ids] alone. *)
Theorem report_ids_exact (d : gmap string pyval) (pdf_names : list string) :
  exists r c,
    normalize_flags_and_context (PDict d) pdf_names = Ret (PDict r) /\
    r !! "context" = Some (PDict c) /\
    c !! "report_ids" = Some (PList (PStr <$> pdf_names)) /\
    (forall c0, d !! "context" = Some (PDict c0) ->
       c = <["report_ids" := PList (PStr <$> pdf_names)]> c0) /\
    ((forall c0, d !! "context" <> Some (PDict c0)) ->
       c = <["report_ids" := PList (PStr <$> pdf_names)]> ∅).
Proof.
  destruct (normalize_result d pdf_names) as (r & Hr & Hc & _).
  destruct (set_report_ids_context d pdf_names) as (c & Hctx & Hids & Hold & Hnew).
  exists r, c. rewrite Hc. auto.
Qed.

Example report_ids_without_labs :
  normalize_flags_and_context (PDict (<["context" := PStr "x"]> ∅)) ["b.pdf"; "a.pdf"; "b.pdf"]
  = Ret (PDict (<["context" :=
        PDict (<["report_ids" := PList [PStr "b.pdf"; PStr "a.pdf"; PStr "b.pdf"]]> ∅)]> ∅)).
Proof. vm_compute. reflexivity. Qed.

(** ** Idempotence *)

(** C3. The function returns, and run again on its result with the same file
    names it returns that result unchanged. *)
Theorem normalize_idempotent (d : gmap string pyval) (pdf_names : list string) :
  exists r,
    normalize_flags_and_context (PDict d) pdf_names = Ret r /\
    normalize_flags_and_context r pdf_names = Ret r.
Proof.
  destruct (set_report_ids_context d pdf_names) as (c & Hctx & Hids & _).
  destruct (labs_shape d) as [[labs H]|H].
  - destruct (normalize_with_labs d pdf_names labs H) as (labs' & Hloop & Hrun).
    eexists. split; [exact Hrun|]. simpl.
    assert (Hc : <["labs" := PList labs']> (set_report_ids d pdf_names) !! "context"
                 = Some (PDict c))
      by (rewrite lookup_insert_ne by discriminate; exact Hctx).
    rewrite (set_report_ids_settled _ c pdf_names Hc Hids).
    unfold dict_get at 1. rewrite lookup_insert_eq. simpl.
    rewrite (for_each_settled _ _ _ normalize_lab_idem Hloop). simpl.
    rewrite insert_insert_eq. reflexivity.
  - eexists. split; [apply normalize_without_labs, H|].
    assert (S : set_report_ids (set_report_ids d pdf_names) pdf_names
                = set_report_ids d pdf_names)
      by (apply (set_report_ids_settled _ c); assumption).
    rewrite <- S at 2. apply normalize_without_labs.
    intros labs. rewrite set_report_ids_other by discriminate. apply H.
Qed.

(** ** Totality *)

(** C7. On a dict the function returns a dict and raises nothing; when
    [labs] is absent or not a list, reading [labs] from the result gives
    what it gave before: the same value, or still no key. *)
Theorem normalize_total (d : gmap string pyval) (pdf_names : list string) :
  exists r,
    normalize_flags_and_context (PDict d) pdf_names = Ret (PDict r) /\
    ((forall labs, d !! "labs" <> Some (PList labs)) -> r !! "labs" = d !! "labs").
Proof.
  destruct (labs_shape d) as [[labs H]|H].
  - destruct (normalize_with_labs d pdf_names labs H) as (labs' & _ & ->).
    eexists. split; [reflexivity|]. intros N. exfalso. exact (N labs H).
  - rewrite (normalize_without_labs d pdf_names H).
    eexists. split; [reflexivity|]. intros _.
    apply set_report_ids_other. discriminate.
Qed.

Example labs_not_a_list :
  normalize_flags_and_context (PDict (<["labs" := PStr "none"]> ∅)) []
  = Ret (PDict (<["context" := PDict (<["report_ids" := PList []]> ∅)]>
                  (<["labs" := PStr "none"]> ∅))).
Proof. vm_compute. reflexivity. Qed.

(** What the model guards against: a comparison of operands that are not
    numbers raises, and a [data] that is not a dict has no [get]. *)
Example comparison_can_raise : py_lt (PStr "5") (PInt 4) = Raise TypeError.
Proof. reflexivity. Qed.

Example not_a_dict : normalize_flags_and_context (PList []) [] = Raise AttributeError.
Proof. reflexivity. Qed.

(** ** Frame *)

(** C9. The function changes nothing but [report_ids] and flags: every key
    of [data] other than [context] and [labs] reads as before; a [context]
    that was a mapping keeps every key other than [report_ids]; a [labs]
    that is a list keeps its length and order, and each entry its fields
    other than [flag] (an entry that is not a mapping is unchanged); a
    [labs] that is not a list is unchanged. *)
Theorem normalize_frame (d : gmap string pyval) (pdf_names : list string) :
  exists r,
    normalize_flags_and_context (PDict d) pdf_names = Ret (PDict r) /\
    (forall k, k <> "context" -> k <> "labs" -> r !! k = d !! k) /\
    (forall c, d !! "context" = Some (PDict c) ->
       exists c', r !! "context" = Some (PDict c') /\
         forall k, k <> "report_ids" -> c' !! k = c !! k) /\
    (forall labs, d !! "labs" = Some (PList labs) ->
       exists labs', r !! "labs" = Some (PList labs') /\
         length labs' = length labs /\
         forall (i : nat) (lab : pyval), labs !! i = Some lab ->
           exists lab', labs' !! i = Some lab' /\ same_but_flag lab lab' /\
             ((forall m, lab <> PDict m) -> lab' = lab)) /\
    ((forall labs, d !! "labs" <> Some (PList labs)) -> r !! "labs" = d !! "labs").
Proof.
  destruct (normalize_result d pdf_names) as (r & Hr & Hc & Hk).
  exists r. split; [exact Hr|]. repeat split.
  - intros k H1 H2. rewrite (Hk k H2). apply set_report_ids_other, H1.
  - intros c Hd. rewrite Hc.
    destruct (set_report_ids_context d pdf_names) as (c' & Hctx & _ & Hold & _).
    exists c'. split; [exact Hctx|]. intros k Hne.
    rewrite (Hold c Hd). apply lookup_insert_ne. congruence.
  - intros labs Hd.
    destruct (normalize_with_labs d pdf_names labs Hd) as (labs' & Hloop & Hrun).
    rewrite Hrun in Hr. inversion Hr; subst r. clear Hr.
    exists labs'. split; [apply lookup_insert_eq|].
    split; [eapply for_each_length, Hloop|].
    intros i lab Hi.
    destruct (for_each_lookup _ _ _ Hloop i lab Hi) as (lab' & Hi' & Hlab).
    exists lab'. split; [exact Hi'|]. split; [apply normalize_lab_frame, Hlab|].
    intros Hnd. rewrite normalize_lab_skip in Hlab.
    + inversion Hlab. reflexivity.
    + intros m ->. exfalso. exact (Hnd m eq_refl).
  - intros H. rewrite (normalize_without_labs d pdf_names H) in Hr.
    inversion Hr; subst r. apply set_report_ids_other. discriminate.
Qed.

(** ** Booleans as numbers *)

(** C10. An entry with flag and qualifier missing or empty whose value,
    ref_low and ref_high are each a JSON boolean or number gets the flag of
    the three-way comparison in which a boolean counts as the integer 1
    (true) or 0 (false). *)
Theorem bool_is_numeric (d : gmap string pyval) (pdf_names : list string)
    (labs : list pyval) (i : nat) (m : gmap string pyval) (v lo hi : pyval) :
  d !! "labs" = Some (PList labs) -> labs !! i = Some (PDict m) ->
  missing_or_empty m "flag" -> missing_or_empty m "qualifier" ->
  m !! "value" = Some v -> m !! "ref_low" = Some lo -> m !! "ref_high" = Some hi ->
  bool_or_number v -> bool_or_number lo -> bool_or_number hi ->
  exists xv xl xh r labs',
    num_of (bool_as_int v) = Some xv /\ num_of (bool_as_int lo) = Some xl /\
    num_of (bool_as_int hi) = Some xh /\
    normalize_flags_and_context (PDict d) pdf_names = Ret (PDict r) /\
    r !! "labs" = Some (PList labs') /\
    labs' !! i = Some (PDict (<["flag" := PStr (range_flag xv xl xh)]> m)).
Proof.
  intros Hd Hi Hf Hq Hv Hl Hh Bv Bl Bh.
  assert (N : forall w, bool_or_number w -> exists x,
              num_of w = Some x /\ num_of (bool_as_int w) = Some x).
  { intros w Hw. destruct w as [|b|z|f|s|l|m0]; simpl in Hw; try contradiction;
      simpl; eauto. }
  destruct (N v Bv) as (xv & Hxv & Hxv'), (N lo Bl) as (xl & Hxl & Hxl'),
    (N hi Bh) as (xh & Hxh & Hxh').
  destruct (normalize_with_labs d pdf_names labs Hd) as (labs' & Hloop & Hrun).
  destruct (for_each_lookup _ _ _ Hloop i _ Hi) as (lab' & Hi' & Hlab).
  rewrite (normalize_lab_inferable m xv xl xh) in Hlab;
    try assumption; try (eexists; split; eassumption).
  injection Hlab as <-.
  exists xv, xl, xh, (<["labs" := PList labs']> (set_report_ids d pdf_names)), labs'.
  repeat split; try assumption. apply lookup_insert_eq.
Qed.

Lemma bool_is_numeric_witness :
  exists r labs',
    normalize_flags_and_context (PDict (with_labs [PDict bool_entry])) [] = Ret (PDict r) /\
    r !! "labs" = Some (PList labs') /\
    labs' !! 0%nat = Some (PDict (<["flag" := PStr "L"]> bool_entry)).
Proof.
  destruct (bool_is_numeric (with_labs [PDict bool_entry]) [] [PDict bool_entry] 0
              bool_entry (PBool true) (PInt 2) (PInt 10))
    as (xv & xl & xh & r & labs' & Ev & El & Eh & Hr & Hl & Hi);
    try reflexivity; try (left; reflexivity); try exact I.
  exists r, labs'. split; [exact Hr|]. split; [exact Hl|].
  rewrite Hi. inversion Ev. inversion El. inversion Eh. reflexivity.
Defined.

(** ** The prompt loader: where the markers are *)

Lemma find_index_from_cases (lines : list text) (label : text) (k : Z) :
  (marker_missing lines label /\ find_index_from k lines label = -1) \/
  (exists i : nat, first_marker lines label i /\
     find_index_from k lines label = k + Z.of_nat i).
Proof.
  revert k. induction lines as [|ln rest IH]; intros k; simpl.
  - left. split; [|reflexivity]. intros ln H. inversion H.
  - destruct (decide (strip ln = label)) as [E|E].
    + right. exists 0%nat. split; [|lia]. split.
      * exists ln. auto.
      * intros j ln' Hj. lia.
    + destruct (IH (k + 1)) as [[Hm Hf]|(i & [Hi Hbefore] & Hf)].
      * left. split; [|exact Hf].
        intros ln' H. apply elem_of_cons in H as [->|H]; auto.
      * right. exists (S i). split; [|lia]. split; [exact Hi|].
        intros [|j] ln' Hj Hl; simpl in Hl.
        -- inversion Hl; subst. exact E.
        -- apply (Hbefore j ln'); [lia | exact Hl].
Qed.

Lemma first_marker_unique (lines : list text) (label : text) (i j : nat) :
  first_marker lines label i -> first_marker lines label j -> i = j.
Proof.
  intros [(ln & Hi & Ei) Bi] [(ln' & Hj & Ej) Bj].
  destruct (Nat.lt_trichotomy i j) as [H|[H|H]]; [|exact H|].
  - exfalso. exact (Bj i ln H Hi Ei).
  - exfalso. exact (Bi j ln' H Hj Ej).
Qed.

Lemma first_marker_not_missing (lines : list text) (label : text) (i : nat) :
  first_marker lines label i -> marker_missing lines label -> False.
Proof.
  intros [(ln & Hi & Ei) _] Hm. apply (Hm ln); [|exact Ei].
  eapply list_elem_of_lookup_2, Hi.
Qed.

Lemma find_index_first (lines : list text) (label : text) (i : nat) :
  first_marker lines label i -> find_index lines label = Z.of_nat i.
Proof.
  intros H. unfold find_index.
  destruct (find_index_from_cases lines label 0) as [[Hm _]|(i' & H' & ->)].
  - exfalso. eapply first_marker_not_missing; eassumption.
  - rewrite (first_marker_unique _ _ _ _ H H'). lia.
Qed.

Lemma find_index_missing (lines : list text) (label : text) :
  marker_missing lines label -> find_index lines label = -1.
Proof.
  intros H. unfold find_index.
  destruct (find_index_from_cases lines label 0) as [[_ E]|(i & H' & _)]; [exact E|].
  exfalso. eapply first_marker_not_missing; eassumption.
Qed.

Lemma marker_cases (lines : list text) (label : text) :
  marker_missing lines label \/ exists i, first_marker lines label i.
Proof.
  destruct (find_index_from_cases lines label 0) as [[H _]|(i & H & _)]; eauto.
Qed.

Lemma slice_between (lines : list text) (i j : nat) :
  slice lines (Z.of_nat i + 1) (Z.of_nat j) = lines_between lines i j.
Proof.
  unfold slice, lines_between. f_equal; [lia|]. f_equal. lia.
Qed.

Lemma slice_after (lines : list text) (j : nat) :
  slice_from lines (Z.of_nat j + 1) = lines_after lines j.
Proof. unfold slice_from, lines_after. f_equal. lia. Qed.

(** ** The prompt loader: what [strip] removes *)

Lemma lstrip_by_head (p : N -> bool) (s : text) (c : N) :
  head (lstrip_by p s) = Some c -> p c = false.
Proof.
  induction s as [|a s IH]; simpl; [discriminate|].
  destruct (p a) eqn:E; [exact IH|]. simpl. intros H. inversion H; subst. exact E.
Qed.

Lemma lstrip_by_suffix (p : N -> bool) (s : text) :
  exists dropped, s = (dropped ++ lstrip_by p s)%list.
Proof.
  induction s as [|a s [d IH]]; simpl.
  - exists []. reflexivity.
  - destruct (p a).
    + exists (a :: d). simpl. f_equal. exact IH.
    + exists []. reflexivity.
Qed.

Lemma last_rev (s : text) : last (rev s) = head s.
Proof. destruct s as [|a s]; [reflexivity|]. simpl. apply last_snoc. Qed.

Lemma head_rev (s : text) : head (rev s) = last s.
Proof. rewrite <- (rev_involutive s) at 2. symmetry. apply last_rev. Qed.

Lemma strip_trimmed (s : text) : trimmed (strip s).
Proof.
  unfold strip, rstrip_by. split; intros c H.
  - destruct (lstrip_by_suffix isspace (rev (lstrip_by isspace s))) as [d Hd].
    apply (f_equal (@rev N)) in Hd. rewrite rev_involutive, rev_app_distr in Hd.
    apply (lstrip_by_head isspace s c). rewrite Hd.
    destruct (rev (lstrip_by isspace (rev (lstrip_by isspace s)))); [discriminate|].
    exact H.
  - rewrite last_rev in H. eapply lstrip_by_head, H.
Qed.

Lemma lstrip_by_dropped (p : N -> bool) (s : text) :
  exists dropped, s = (dropped ++ lstrip_by p s)%list /\ forall c, c ∈ dropped -> p c = true.
Proof.
  induction s as [|a s (d & IH & Hd)]; simpl.
  - exists []. split; [reflexivity|]. intros c H. inversion H.
  - destruct (p a) eqn:E.
    + exists (a :: d). split; [simpl; f_equal; exact IH|].
      intros c H. apply elem_of_cons in H as [-> | H]; auto.
    + exists []. split; [reflexivity|]. intros c H. inversion H.
Qed.

Lemma lstrip_by_skip (p : N -> bool) (before s : text) :
  (forall c, c ∈ before -> p c = true) -> lstrip_by p (before ++ s)%list = lstrip_by p s.
Proof.
  induction before as [|a before IH]; intros H; simpl; [reflexivity|].
  rewrite (H a) by apply list_elem_of_here.
  apply IH. intros c Hc. apply H. apply list_elem_of_further, Hc.
Qed.

Lemma lstrip_by_keep (p : N -> bool) (s : text) :
  (forall c, head s = Some c -> p c = false) -> lstrip_by p s = s.
Proof.
  destruct s as [|a s]; intros H; simpl; [reflexivity|].
  rewrite (H a) by reflexivity. reflexivity.
Qed.

Lemma lstrip_by_all (p : N -> bool) (s : text) :
  (forall c, c ∈ s -> p c = true) -> lstrip_by p s = [].
Proof.
  intros H. rewrite <- (app_nil_r s). rewrite lstrip_by_skip by exact H. reflexivity.
Qed.

Lemma blank_rev (s : text) : blank s -> blank (rev s).
Proof. intros H c Hc. apply H. apply list_elem_of_In, in_rev, list_elem_of_In, Hc. Qed.

Lemma blank_app (s t : text) : blank s -> blank t -> blank (s ++ t)%list.
Proof. intros Hs Ht c Hc. apply elem_of_app in Hc as [Hc|Hc]; auto. Qed.

(** [strip] takes whitespace away from the two ends, and nothing else. *)
Lemma strip_spec (raw : text) : trims_to raw (strip raw).
Proof.
  destruct (lstrip_by_dropped isspace raw) as (d1 & E1 & B1).
  destruct (lstrip_by_dropped isspace (rev (lstrip_by isspace raw))) as (d2 & E2 & B2).
  exists d1, (rev d2). split; [|split; [exact B1|split; [apply blank_rev; exact B2|]]].
  - unfold strip, rstrip_by. rewrite <- rev_app_distr, <- E2, rev_involutive. exact E1.
  - apply strip_trimmed.
Qed.

Lemma trims_to_strip (raw t : text) : trims_to raw t -> strip raw = t.
Proof.
  intros (before & after & -> & Hb & Ha & [Hh Hl]).
  unfold strip, rstrip_by. rewrite (lstrip_by_skip _ _ _ Hb).
  destruct t as [|c t].
  - simpl. rewrite (lstrip_by_all _ _ Ha). reflexivity.
  - rewrite (lstrip_by_keep isspace ((c :: t) ++ after)%list)
      by (intros c' H; apply Hh; exact H).
    rewrite rev_app_distr, (lstrip_by_skip _ _ _ (blank_rev _ Ha)).
    rewrite lstrip_by_keep; [apply rev_involutive|].
    intros c' H. rewrite head_rev in H. apply Hl, H.
Qed.

Lemma strip_empty_blank (raw : text) : strip raw = [] <-> blank raw.
Proof.
  split.
  - intros E. destruct (strip_spec raw) as (before & after & Hr & Hb & Ha & _).
    rewrite E in Hr. rewrite Hr. apply blank_app; assumption.
  - intros H. apply trims_to_strip. exists raw, []. rewrite !app_nil_r.
    split; [reflexivity|]. split; [exact H|]. split; [intros c Hc; inversion Hc|].
    split; intros c Hc; discriminate.
Qed.

Lemma strip_marker_line (label ln : text) : strip ln = label <-> marker_line label ln.
Proof.
  split; [intros <-; apply strip_spec | apply trims_to_strip].
Qed.

Lemma marker_missing_no_line (lines : list text) (label : text) :
  marker_missing lines label <-> no_marker_line lines label.
Proof.
  split; intros H ln Hin Hm; apply (H ln Hin); apply strip_marker_line; exact Hm.
Qed.

Lemma first_marker_first_line (lines : list text) (label : text) (i : nat) :
  first_marker lines label i <-> first_marker_line lines label i.
Proof.
  split.
  - intros [(ln & Hi & E) Hb]. split.
    + exists ln. split; [exact Hi | apply strip_marker_line, E].
    + intros j ln' Hj Hl Hm. apply (Hb j ln' Hj Hl). apply strip_marker_line, Hm.
  - intros [(ln & Hi & E) Hb]. split.
    + exists ln. split; [exact Hi | apply strip_marker_line, E].
    + intros j ln' Hj Hl Hm. apply (Hb j ln' Hj Hl). apply strip_marker_line, Hm.
Qed.

(** ** The prompt loader: failure and result *)

Lemma parse_prompts_cases (content : text) :
  let lines := prompt_lines content in
  ((marker_missing lines SYSTEM \/ marker_missing lines USER \/
    exists i j, first_marker lines SYSTEM i /\ first_marker lines USER j /\
      ((j <= i)%nat \/ system_block lines i j = [] \/ user_block lines j = []))
   /\ exists e, parse_prompts content = Raise e) \/
  (exists i j, first_marker lines SYSTEM i /\ first_marker lines USER j /\
     (i < j)%nat /\ system_block lines i j <> [] /\ user_block lines j <> [] /\
     parse_prompts content = Ret (system_block lines i j, user_block lines j)).
Proof.
  intros lines. unfold parse_prompts. fold lines.
  destruct (marker_cases lines SYSTEM) as [Hs|[i Hs]].
  { left. split; [left; exact Hs|].
    rewrite (find_index_missing _ _ Hs). simpl. eauto. }
  destruct (marker_cases lines USER) as [Hu|[j Hu]].
  { left. split; [right; left; exact Hu|].
    rewrite (find_index_missing _ _ Hu). simpl. rewrite orb_true_r. simpl. eauto. }
  rewrite (find_index_first _ _ _ Hs), (find_index_first _ _ _ Hu).
  destruct (Z.of_nat i =? -1)%Z eqn:E1; [apply Z.eqb_eq in E1; lia|].
  destruct (Z.of_nat j =? -1)%Z eqn:E2; [apply Z.eqb_eq in E2; lia|]. simpl.
  destruct (Z.of_nat j <=? Z.of_nat i)%Z eqn:E3.
  { apply Z.leb_le in E3. left. split; [|eauto]. right; right. exists i, j.
    split; [exact Hs|]. split; [exact Hu|]. left. lia. }
  apply Z.leb_gt in E3.
  rewrite slice_between, slice_after.
  fold (system_block lines i j). fold (user_block lines j).
  destruct (decide (system_block lines i j = [])) as [Es|Es].
  { left. rewrite (bool_decide_eq_true_2 _ Es). simpl. split; [|eauto].
    right; right. exists i, j. auto. }
  destruct (decide (user_block lines j = [])) as [Eu|Eu].
  { left. rewrite (bool_decide_eq_true_2 _ Eu), orb_true_r. split; [|eauto].
    right; right. exists i, j. auto. }
  right. exists i, j.
  rewrite (bool_decide_eq_false_2 _ Es), (bool_decide_eq_false_2 _ Eu). simpl.
  repeat split; try assumption; try apply Hs; try apply Hu. lia.
Qed.

(** The two outcomes of the loader in terms of what the file holds. *)
Lemma parse_prompts_outcomes (content : text) :
  let lines := prompt_lines content in
  (loader_failure lines /\ exists e, parse_prompts content = Raise e) \/
  (~ loader_failure lines /\
   exists i j system user,
     first_marker_line lines SYSTEM i /\ first_marker_line lines USER j /\
     (i < j)%nat /\
     trims_to (join_lines (lines_between lines i j)) system /\
     trims_to (join_lines (lines_after lines j)) user /\
     system <> [] /\ user <> [] /\
     parse_prompts content = Ret (system, user)).
Proof.
  intros lines. pose proof (parse_prompts_cases content) as C. cbv zeta in C.
  fold lines in C.
  destruct C as [[Hfail Hraise]|(i & j & Hs & Hu & Hlt & Es & Eu & Hret)].
  - left. split; [|exact Hraise].
    destruct Hfail as [Hm|[Hm|(i & j & Hs & Hu & Hbad)]].
    + left. apply marker_missing_no_line, Hm.
    + right; left. apply marker_missing_no_line, Hm.
    + right; right. exists i, j.
      split; [apply first_marker_first_line, Hs|].
      split; [apply first_marker_first_line, Hu|].
      destruct Hbad as [H|[H|H]]; [left; exact H | right; left | right; right];
        apply strip_empty_blank; exact H.
  - right. split.
    + intros [Hm|[Hm|(i' & j' & Hs' & Hu' & Hbad)]].
      * apply marker_missing_no_line in Hm.
        exact (first_marker_not_missing _ _ _ Hs Hm).
      * apply marker_missing_no_line in Hm.
        exact (first_marker_not_missing _ _ _ Hu Hm).
      * apply first_marker_first_line in Hs', Hu'.
        rewrite <- (first_marker_unique _ _ _ _ Hs Hs') in Hbad.
        rewrite <- (first_marker_unique _ _ _ _ Hu Hu') in Hbad.
        destruct Hbad as [H|[H|H]]; [lia | |];
          apply strip_empty_blank in H; auto.
    + exists i, j, (system_block lines i j), (user_block lines j).
      split; [apply first_marker_first_line, Hs|].
      split; [apply first_marker_first_line, Hu|].
      split; [exact Hlt|].
      split; [apply strip_spec|]. split; [apply strip_spec|].
      split; [exact Es|]. split; [exact Eu|]. exact Hret.
Qed.

Example sample_prompt_parsed :
  parse_prompts sample_prompt
  = Ret ((text_of "A" ++ nl ++ text_of "B")%list, (text_of "C" ++ nl ++ text_of "D")%list).
Proof. vm_compute. reflexivity. Qed.

Example markers_out_of_order :
  exists e, parse_prompts (text_of "USER" ++ nl ++ text_of "A" ++ nl ++
                           text_of "SYSTEM" ++ nl ++ text_of "B")%list = Raise e.
Proof. eexists. vm_compute. reflexivity. Qed.

Example missing_user_marker :
  exists e, parse_prompts (text_of "SYSTEM" ++ nl ++ text_of "A")%list = Raise e.
Proof. eexists. vm_compute. reflexivity. Qed.

(** C4, as amended. On a prompt file that is read, a marker being the
    first line that reads SYSTEM (resp. USER) once the whitespace around
    it is taken away: the loader fails exactly when there is no SYSTEM
    line, no USER line, the first USER line is not after the first SYSTEM
    line, or the text between them or the text after the USER line is
    whitespace only; otherwise it returns these two texts with the
    whitespace at their ends taken away, both non-empty. *)
Theorem prompt_loader_cases (fs : gmap string text) (markdown_path : string)
    (content : text) :
  fs !! markdown_path = Some content ->
  let lines := prompt_lines content in
  ((exists e, read_prompts_from_markdown fs markdown_path = Raise e)
   <-> loader_failure lines) /\
  (~ loader_failure lines ->
   exists i j system user,
     first_marker_line lines SYSTEM i /\ first_marker_line lines USER j /\
     (i < j)%nat /\
     trims_to (join_lines (lines_between lines i j)) system /\
     trims_to (join_lines (lines_after lines j)) user /\
     system <> [] /\ user <> [] /\
     read_prompts_from_markdown fs markdown_path = Ret (system, user)).
Proof.
  intros Hfile lines.
  assert (R : read_prompts_from_markdown fs markdown_path = parse_prompts content).
  { unfold read_prompts_from_markdown, read_text. rewrite Hfile. reflexivity. }
  rewrite R. subst lines.
  pose proof (parse_prompts_outcomes content) as C. cbv zeta in C.
  destruct C as [[Hfail Hraise]|[Hok Hret]].
  - split; [tauto|]. intros H. contradiction.
  - split; [|intros _; exact Hret].
    split; [|intros H; contradiction].
    intros [e He]. destruct Hret as (i & j & system & user & Hret).
    destruct Hret as (_ & _ & _ & _ & _ & _ & _ & Hret).
    rewrite Hret in He. discriminate.
Qed.

Lemma prompt_loader_cases_witness :
  read_prompts_from_markdown {[ "ai-prompt.md" := sample_prompt ]} "ai-prompt.md"
  = Ret ((text_of "A" ++ nl ++ text_of "B")%list, (text_of "C" ++ nl ++ text_of "D")%list)
  /\ ((exists e, read_prompts_from_markdown {[ "ai-prompt.md" := sample_prompt ]}
                   "ai-prompt.md" = Raise e)
      <-> loader_failure (prompt_lines sample_prompt)).
Proof.
  split; [vm_compute; reflexivity|].
  apply (prompt_loader_cases {[ "ai-prompt.md" := sample_prompt ]} "ai-prompt.md"
           sample_prompt).
  reflexivity.
Defined.

(** C4 as stated fails when a marker is a line exactly equal to SYSTEM
    (resp. USER). A file whose marker lines have blanks around them has no
    such line, and is loaded. A file with the lines USER, x, SYSTEM, A,
    USER, B has a SYSTEM line, a USER line after it and two blocks that
    are not empty, and is refused, its first USER line being before the
    SYSTEM line. *)
Lemma exact_marker_reading_fails :
  ((SYSTEM ∉ prompt_lines padded_prompt) /\
   parse_prompts padded_prompt = Ret (text_of "A", text_of "B")) /\
  (prompt_lines reordered_prompt !! 2%nat = Some SYSTEM /\
   prompt_lines reordered_prompt !! 4%nat = Some USER /\
   lines_between (prompt_lines reordered_prompt) 2 4 = [text_of "A"] /\
   lines_after (prompt_lines reordered_prompt) 4 = [text_of "B"] /\
   parse_prompts reordered_prompt
   = Raise (RuntimeError "Could not locate SYSTEM and USER blocks in ai-prompt.md")).
Proof.
  split; [split; [|vm_compute; reflexivity]|repeat split; vm_compute; reflexivity].
  intros H. vm_compute in H. repeat (apply elem_of_cons in H as [H|H]; [discriminate|]).
  inversion H.
Qed.

(** C5, as amended. The delimiter for a label is the first line whose
    content, with the whitespace at both ends removed, equals the label:
    [find_index] returns [i] exactly when line [i] is that line, and -1
    exactly when no line strips to the label. *)
Theorem delimiter_is_stripped_match (lines : list text) (label : text) :
  (forall i : nat, find_index lines label = Z.of_nat i <-> first_marker lines label i) /\
  (find_index lines label = -1 <-> marker_missing lines label).
Proof.
  split.
  - intros i. split; [|apply find_index_first].
    intros H. destruct (marker_cases lines label) as [Hm|[i' Hi']].
    + rewrite (find_index_missing _ _ Hm) in H. lia.
    + rewrite (find_index_first _ _ _ Hi') in H.
      assert (i' = i) by lia. subst. exact Hi'.
  - split; [|apply find_index_missing].
    intros H. destruct (marker_cases lines label) as [Hm|[i' Hi']]; [exact Hm|].
    rewrite (find_index_first _ _ _ Hi') in H. lia.
Qed.

(** C5 as stated fails: a line that differs from the marker by blanks
    around it is taken as the delimiter. *)
Lemma padded_marker_is_delimiter :
  prompt_lines padded_prompt !! 0%nat = Some (text_of "  SYSTEM ") /\
  text_of "  SYSTEM " <> SYSTEM /\
  find_index (prompt_lines padded_prompt) SYSTEM = 0 /\
  find_index (prompt_lines padded_prompt) USER = 2 /\
  parse_prompts padded_prompt = Ret (text_of "A", text_of "B").
Proof.
  repeat split; try (vm_compute; reflexivity). discriminate.
Qed.

(** ** The command line without its prompt file *)

Lemma main_without_prompt_file (resolve : string -> string)
    (extract : text -> text -> cli_args -> cli_env -> cli_outcome)
    (args : cli_args) (env : cli_env) (key : string) :
  api_key env = Some key -> key <> "" ->
  text_files env !! resolve (prompt args) = None ->
  main resolve extract args env = {| stderr := []; result := Raise FileNotFoundError |}.
Proof.
  intros Hk Hne Hf. unfold main. rewrite Hk.
  destruct key as [|c key]; [contradiction|].
  unfold read_prompts_from_markdown, read_text. rewrite Hf. reflexivity.
Qed.

(** C6 fails on the code: with the credential set and no prompt file,
    [main] prints nothing itself and lets [FileNotFoundError] through, so
    the process ends with status 1, not 2. *)
Theorem missing_prompt_file_status (resolve : string -> string)
    (extract : text -> text -> cli_args -> cli_env -> cli_outcome) :
  main resolve extract default_args env_without_prompt
  = {| stderr := []; result := Raise FileNotFoundError |} /\
  exit_status (main resolve extract default_args env_without_prompt) = 1 /\
  exit_status (main resolve extract default_args env_without_prompt) <> 2.
Proof.
  assert (E : main resolve extract default_args env_without_prompt
              = {| stderr := []; result := Raise FileNotFoundError |}).
  { apply (main_without_prompt_file _ _ _ _ "sk-test"); [reflexivity | discriminate |].
    apply lookup_empty. }
  rewrite E. repeat split. discriminate.
Qed.

(** The credential check, for comparison, does print and return 2. *)
Example missing_credential_status (resolve : string -> string)
    (extract : text -> text -> cli_args -> cli_env -> cli_outcome) :
  exit_status (main resolve extract default_args {| api_key := None; text_files := ∅ |}) = 2.
Proof. reflexivity. Qed.

(** ** Uploads and their cleanup *)

(** What the guard of [_cleanup_paths] does ensure: a change of the file
    system means the parent's name is not [tmp_uploads] and its path
    string starts with that of the scratch root. *)
Lemma cleanup_guard (BASE_DIR : path) (first : path) (rest : list path)
    (fs : filesystem) :
  _cleanup_paths BASE_DIR (first :: rest) fs <> fs ->
  path_name (path_parent first) <> "tmp_uploads" /\
  startswith (path_str (path_parent first)) (path_str (scratch_root BASE_DIR)) = true.
Proof.
  unfold _cleanup_paths. intros H.
  destruct (bool_decide (path_name (path_parent first) <> "tmp_uploads")) eqn:E1;
    [|contradiction].
  apply bool_decide_eq_true_1 in E1. split; [exact E1|].
  destruct (os_exists (path_parent first) fs); simpl in H; [|contradiction].
  destruct (startswith _ _); [reflexivity | contradiction].
Qed.

(** C8 fails on the code: an upload whose file name names a directory
    that does not exist makes the save raise before [saved_paths] is
    assigned, the [finally] block then skips the cleanup, and the scratch
    directory of the request stays on disk. *)
Theorem scratch_dir_left_behind
    (_process_paths : list path -> string -> path -> filesystem -> res pyval * filesystem)
    (JSONResponse : pyval -> res pyval) :
  exists fs,
    ingest_labs srv _process_paths JSONResponse
      (form_with "sub/x.pdf") srv_env srv_disk = (Raise FileNotFoundError, fs) /\
    is_dir ["srv"; "tmp_uploads"; "u1"] srv_disk = false /\
    is_dir ["srv"; "tmp_uploads"; "u1"] fs = true /\
    path_exists ["srv"; "tmp_uploads"; "u1"] fs = true.
Proof.
  eexists. split; [vm_compute; reflexivity|].
  repeat split; vm_compute; reflexivity.
Qed.

(** The test of the cleanup is on path strings: a directory beside the
    scratch root whose name starts with [tmp_uploads] passes it and is
    removed, though it is not under the scratch root. *)
Lemma cleanup_removes_sibling :
  ~ scratch_root srv `prefix_of` ["srv"; "tmp_uploads_old"] /\
  is_dir ["srv"; "tmp_uploads_old"] sibling_disk = true /\
  is_dir ["srv"; "tmp_uploads_old"]
    (_cleanup_paths srv [["srv"; "tmp_uploads_old"; "x.pdf"]] sibling_disk) = false.
Proof.
  split; [|split; vm_compute; reflexivity].
  intros [k H]. vm_compute in H. discriminate.
Qed.

(** A plain file name, for comparison: the save returns and the scratch
    directory is removed, here with a pipeline that leaves the disk as it
    is. *)
Example plain_upload_cleaned :
  exists r fs,
    ingest_labs srv (fun _ _ _ fs => (Ret PNone, fs)) Ret
      (form_with "x.pdf") srv_env srv_disk = (r, fs) /\
    path_exists ["srv"; "tmp_uploads"; "u1"] fs = false.
Proof. eexists. eexists. split; vm_compute; reflexivity. Qed.

(* ================================================================== *)
(** * Further properties of the code *)

(** ** File classification *)

Lemma lower_ascii_dot (c : ascii) :
  Ascii.eqb (lower_ascii c) "." = Ascii.eqb c ".".
Proof. destruct c as [[] [] [] [] [] [] [] []]; reflexivity. Qed.

Lemma lower_length (s : string) : String.length (lower s) = String.length s.
Proof. induction s as [|c s IH]; simpl; congruence. Qed.

Lemma lower_rfind_dot (s : string) : rfind_dot (lower s) = rfind_dot s.
Proof.
  induction s as [|c s IH]; simpl; [reflexivity|].
  rewrite IH, lower_ascii_dot. reflexivity.
Qed.

Lemma lower_substring (s : string) (i n : nat) :
  substring i n (lower s) = lower (substring i n s).
Proof.
  revert i n. induction s as [|c s IH]; intros [|i] [|n]; simpl; try reflexivity.
  - rewrite IH. reflexivity.
  - apply IH.
  - apply IH.
Qed.

(** Lowering commutes with taking the suffix. *)
Lemma lower_name_suffix (name : string) :
  lower (name_suffix name) = name_suffix (lower name).
Proof.
  unfold name_suffix. rewrite lower_rfind_dot, lower_length.
  destruct (rfind_dot name) as [i|]; [|reflexivity].
  destruct (_ && _); [|reflexivity].
  symmetry. apply lower_substring.
Qed.

Lemma path_name_last (dir : path) (name : string) : path_name (dir ++ [name]) = name.
Proof. unfold path_name. rewrite last_snoc. reflexivity. Qed.

Lemma not_both_kinds (p : path) : is_image_file p && is_pdf_file p = false.
Proof.
  unfold is_image_file, is_pdf_file.
  destruct (decide (lower (suffix p) = ".pdf")) as [E|E].
  - rewrite E. reflexivity.
  - rewrite (bool_decide_eq_false_2 _ E). apply andb_false_r.
Qed.

(** X1. No path is both an image and a PDF. *)
Theorem image_and_pdf_exclusive (p : path) :
  is_image_file p && is_pdf_file p = false.
Proof. apply not_both_kinds. Qed.

(** X2. The class of a path depends on its last name alone, and not on the
    case of its letters. *)
Theorem classification_ignores_case (dir1 dir2 : path) (name1 name2 : string) :
  lower name1 = lower name2 ->
  is_image_file (dir1 ++ [name1]) = is_image_file (dir2 ++ [name2]) /\
  is_pdf_file (dir1 ++ [name1]) = is_pdf_file (dir2 ++ [name2]).
Proof.
  intros H. unfold is_image_file, is_pdf_file, suffix.
  rewrite !path_name_last, !lower_name_suffix, H. auto.
Qed.

Lemma classification_ignores_case_witness :
  is_pdf_file ["in"; "report.PDF"] = true /\
  is_pdf_file ["in"; "report.PDF"] = is_pdf_file ["srv"; "tmp"; "REPORT.pdf"].
Proof.
  split; [reflexivity|].
  apply (classification_ignores_case ["in"] ["srv"; "tmp"] "report.PDF" "REPORT.pdf").
  reflexivity.
Defined.

Lemma rfind_dot_bound (s : string) (i : nat) :
  rfind_dot s = Some i -> (i < String.length s)%nat.
Proof.
  revert i. induction s as [|c s IH]; intros i; simpl; [discriminate|].
  destruct (rfind_dot s) as [j|].
  - intros [= <-]. specialize (IH j eq_refl). lia.
  - destruct (Ascii.eqb c "."); [|discriminate]. intros [= <-]. lia.
Qed.

Lemma rfind_dot_trailing (s : string) :
  rfind_dot (s ++ ".") = Some (String.length s).
Proof.
  induction s as [|c s IH]; simpl; [reflexivity|].
  rewrite IH. reflexivity.
Qed.

Lemma length_append_dot (s : string) :
  String.length (s ++ ".") = S (String.length s).
Proof. induction s as [|c s IH]; simpl; congruence. Qed.

(** X3. A name that ends with a dot, and a name whose only dot is its first
    character (a hidden file such as [.pdf]), have no suffix: such a file
    is neither an image nor a PDF. *)
Theorem dot_at_either_end_unsupported (dir : path) (stem : string) :
  (is_image_file (dir ++ [stem ++ "."]) = false /\
   is_pdf_file (dir ++ [stem ++ "."]) = false) /\
  (rfind_dot stem = None ->
   is_image_file (dir ++ [String "." stem]) = false /\
   is_pdf_file (dir ++ [String "." stem]) = false).
Proof.
  unfold is_image_file, is_pdf_file, suffix. rewrite !path_name_last. split.
  - unfold name_suffix. rewrite rfind_dot_trailing, length_append_dot.
    replace (String.length stem <? S (String.length stem) - 1)%nat with false
      by (symmetry; apply Nat.ltb_ge; lia).
    rewrite andb_false_r. split; reflexivity.
  - intros Hno. unfold name_suffix. simpl. rewrite Hno. simpl. split; reflexivity.
Qed.

(** ** The three lists of inputs *)

Lemma filter_agree {A : Type} (P Q : A -> Prop) `{!forall x, Decision (P x)}
    `{!forall x, Decision (Q x)} (l : list A) :
  (forall x, x ∈ l -> (P x <-> Q x)) -> filter P l = filter Q l.
Proof.
  induction l as [|a l IH]; intros Hag; [reflexivity|].
  assert (Ha : P a <-> Q a) by (apply Hag; left).
  assert (Hl : filter P l = filter Q l)
    by (apply IH; intros x Hx; apply Hag; right; exact Hx).
  destruct (decide (P a)) as [Pa|Pa].
  - rewrite !filter_cons_True by tauto. congruence.
  - rewrite !filter_cons_False by tauto. exact Hl.
Qed.

(** The paths warned about are those that are neither image nor PDF. *)
Lemma other_paths_unsupported (input_paths : list path) :
  other_paths_of input_paths
  = filter (fun p => is_image_file p = false /\ is_pdf_file p = false) input_paths.
Proof.
  unfold other_paths_of. apply filter_agree. intros p Hp.
  unfold image_paths_of, pdf_paths_of. rewrite !list_elem_of_filter.
  destruct (is_image_file p), (is_pdf_file p); simpl; split;
    intros [H1 H2]; try discriminate; try (split; [reflexivity|reflexivity]);
    try (exfalso; apply H1; split; [exact I | exact Hp]);
    try (exfalso; apply H2; split; [exact I | exact Hp]).
  split; intros [H _]; exact H.
Qed.

(** X4. The split of the inputs loses and repeats nothing: images, PDFs and
    the others together are the inputs, up to order, and the others are
    exactly the paths with neither kind of suffix. *)
Theorem inputs_split_three_ways (input_paths : list path) :
  image_paths_of input_paths ++ pdf_paths_of input_paths ++ other_paths_of input_paths
    ≡ₚ input_paths /\
  (forall p, p ∈ other_paths_of input_paths <->
     p ∈ input_paths /\ is_image_file p = false /\ is_pdf_file p = false).
Proof.
  split.
  - rewrite other_paths_unsupported. unfold image_paths_of, pdf_paths_of.
    induction input_paths as [|p l IH]; [reflexivity|].
    pose proof (not_both_kinds p) as X.
    destruct (is_image_file p) eqn:Ei, (is_pdf_file p) eqn:Ep; try discriminate.
    + rewrite (filter_cons_True (fun p => is_image_file p)) by (rewrite Ei; exact I).
      rewrite (filter_cons_False (fun p => is_pdf_file p)) by (rewrite Ep; simpl; tauto).
      rewrite (filter_cons_False (fun p => is_image_file p = false /\ _))
        by (rewrite Ei; intros [? _]; discriminate).
      simpl. f_equiv. exact IH.
    + rewrite (filter_cons_False (fun p => is_image_file p)) by (rewrite Ei; simpl; tauto).
      rewrite (filter_cons_True (fun p => is_pdf_file p)) by (rewrite Ep; exact I).
      rewrite (filter_cons_False (fun p => is_image_file p = false /\ _))
        by (rewrite Ep; intros [_ ?]; discriminate).
      simpl. rewrite <- Permutation_middle. f_equiv. exact IH.
    + rewrite (filter_cons_False (fun p => is_image_file p)) by (rewrite Ei; simpl; tauto).
      rewrite (filter_cons_False (fun p => is_pdf_file p)) by (rewrite Ep; simpl; tauto).
      rewrite (filter_cons_True (fun p => is_image_file p = false /\ _))
        by (rewrite Ei, Ep; auto).
      rewrite app_assoc, <- Permutation_middle, <- app_assoc. f_equiv. exact IH.
  - intros p. rewrite other_paths_unsupported, list_elem_of_filter. tauto.
Qed.

(** ** The prompt loader: what it returns *)

(** X5. On success both prompts are non-empty and neither begins nor ends
    with whitespace. *)
Theorem loaded_prompts_are_trimmed (fs : gmap string text) (markdown_path : string)
    (system_prompt user_prompt : text) :
  read_prompts_from_markdown fs markdown_path = Ret (system_prompt, user_prompt) ->
  system_prompt <> [] /\ user_prompt <> [] /\
  trimmed system_prompt /\ trimmed user_prompt.
Proof.
  unfold read_prompts_from_markdown, read_text.
  destruct (fs !! markdown_path) as [content|]; simpl; [|discriminate].
  intros H. pose proof (parse_prompts_cases content) as C. cbv zeta in C.
  destruct C as [[_ [e He]]|(i & j & _ & _ & _ & Es & Eu & Hret)]; [congruence|].
  rewrite Hret in H. inversion H; subst.
  repeat split; try assumption; apply strip_trimmed.
Qed.

Lemma loaded_prompts_are_trimmed_witness :
  text_of "A" <> [] /\ trimmed (text_of "A") /\ trimmed (text_of "B").
Proof.
  destruct (loaded_prompts_are_trimmed {[ "ai-prompt.md" := padded_prompt ]}
              "ai-prompt.md" (text_of "A") (text_of "B")) as (H1 & _ & H2 & H3).
  - vm_compute. reflexivity.
  - auto.
Defined.

Lemma splitlines_crlf (s cur : text) :
  13%N ∉ s -> splitlines_from cur (crlf s) = splitlines_from cur s.
Proof.
  revert cur. induction s as [|c rest IH]; intros cur Hcr; [reflexivity|].
  apply not_elem_of_cons in Hcr as [Hc Hrest].
  cbn [crlf]. destruct (c =? 10)%N eqn:E.
  - apply N.eqb_eq in E. subst c. cbn [splitlines_from].
    change (is_linebreak 13) with true. change (is_linebreak 10) with true.
    cbn iota. change ((13 =? 13)%N && (10 =? 10)%N) with true. cbn iota.
    rewrite (IH [] Hrest). destruct rest; reflexivity.
  - cbn [splitlines_from]. destruct (is_linebreak c); [|apply IH, Hrest].
    assert (F : (c =? 13)%N = false) by (apply N.eqb_neq; congruence).
    rewrite F. simpl. rewrite (IH [] Hrest).
    destruct (crlf rest), rest; reflexivity.
Qed.

(** X6. A prompt file saved with CR LF line ends loads to the same prompts, or
    the same failure, as the file with LF line ends. *)
Theorem crlf_prompt_file_same_prompts (fs : gmap string text) (markdown_path : string)
    (content : text) :
  13%N ∉ content ->
  read_prompts_from_markdown (<[markdown_path := crlf content]> fs) markdown_path
  = read_prompts_from_markdown (<[markdown_path := content]> fs) markdown_path.
Proof.
  intros H. unfold read_prompts_from_markdown, read_text.
  rewrite !lookup_insert_eq. simpl.
  unfold parse_prompts, prompt_lines, splitlines. rewrite (splitlines_crlf _ _ H).
  reflexivity.
Qed.

Lemma crlf_prompt_file_same_prompts_witness :
  read_prompts_from_markdown {[ "ai-prompt.md" := crlf sample_prompt ]} "ai-prompt.md"
  = Ret ((text_of "A" ++ nl ++ text_of "B")%list, (text_of "C" ++ nl ++ text_of "D")%list).
Proof.
  change ({[ "ai-prompt.md" := crlf sample_prompt ]} : gmap string text)
    with (<["ai-prompt.md" := crlf sample_prompt]> (∅ : gmap string text)).
  rewrite (crlf_prompt_file_same_prompts ∅ "ai-prompt.md" sample_prompt).
  - vm_compute. reflexivity.
  - apply (bool_decide_eq_false_1 (13%N ∈ sample_prompt)). vm_compute. reflexivity.
Defined.

(** ** Decoding and post-processing *)

Lemma postprocess_dict (d : gmap string pyval) (pdf_paths : list path) :
  exists r c,
    postprocess (PDict d) pdf_paths = PDict r /\
    r !! "context" = Some (PDict c) /\
    c !! "report_ids" = Some (PList (PStr <$> (path_name <$> pdf_paths))) /\
    (forall k, k <> "context" -> k <> "labs" -> r !! k = d !! k).
Proof.
  unfold postprocess.
  destruct (normalize_result d (path_name <$> pdf_paths)) as (r & -> & Hc & Hk).
  destruct (set_report_ids_context d (path_name <$> pdf_paths)) as (c & Hctx & Hids & _).
  exists r, c. split; [reflexivity|]. split; [congruence|]. split; [exact Hids|].
  intros k H1 H2. rewrite (Hk k H2). apply set_report_ids_other, H1.
Qed.

Lemma postprocess_not_dict (v : pyval) (pdf_paths : list path) :
  (forall d, v <> PDict d) -> postprocess v pdf_paths = v.
Proof. intros H. destruct v; try reflexivity. exfalso. exact (H m eq_refl). Qed.

(** X7. What is written and returned for each kind of model output: text that
    is not JSON comes back under [raw] with the [report_ids] beside it; a
    JSON object gets its [report_ids] and keeps its other keys; any other
    JSON value is passed on as it is, without [report_ids]. *)
Theorem decoded_output_shape (json_loads : string -> option pyval)
    (output_text : string) (pdf_paths : list path) :
  let data := postprocess (decode_output json_loads output_text) pdf_paths in
  let report_ids := PList (PStr <$> (path_name <$> pdf_paths)) in
  (json_loads output_text = None ->
   data = PDict (<["context" := PDict (<["report_ids" := report_ids]> ∅)]>
                   (<["raw" := PStr output_text]> ∅))) /\
  (forall d, json_loads output_text = Some (PDict d) ->
   exists r c, data = PDict r /\ r !! "context" = Some (PDict c) /\
     c !! "report_ids" = Some report_ids /\
     forall k, k <> "context" -> k <> "labs" -> r !! k = d !! k) /\
  (forall v, json_loads output_text = Some v -> (forall d, v <> PDict d) -> data = v).
Proof.
  intros data report_ids. subst data report_ids. unfold decode_output.
  split; [|split].
  - intros ->. unfold postprocess. rewrite normalize_without_labs.
    + reflexivity.
    + intros labs. rewrite lookup_insert_ne by discriminate.
      rewrite lookup_empty. discriminate.
  - intros d ->. apply postprocess_dict.
  - intros v -> Hv. apply postprocess_not_dict, Hv.
Qed.

(** ** The pipeline of the server *)

Lemma process_paths_frame
    (guess_type : string -> option string) (b64encode : text -> string)
    (files_create : path -> text -> res string)
    (call_model : string -> text -> text -> list string -> list string -> res string)
    (json_loads : string -> option pyval) (json_dumps : pyval -> text)
    (output_path : option path) (input_paths : list path) (model : string)
    (prompt_path : path) (fs : filesystem) :
  let run := _process_paths guess_type b64encode files_create call_model json_loads
               json_dumps in
  dirs (run output_path input_paths model prompt_path fs).2 = dirs fs /\
  (forall q, (forall out, output_path = Some out -> locate fs out <> Ret q) ->
     contents (run output_path input_paths model prompt_path fs).2 !! q
     = contents fs !! q) /\
  (run output_path input_paths model prompt_path fs).1
  = (run None input_paths model prompt_path fs).1.
Proof.
  intros run. subst run. unfold _process_paths.
  destruct (let* image_uris := _ in _) as [output_text|e]; simpl; [|auto].
  destruct output_path as [out|]; simpl; [|auto].
  unfold write_file.
  destruct (locate fs out) as [place|e] eqn:E; simpl; [|auto].
  destruct (is_dir place fs || bool_decide (last out = Some "..")); simpl; [auto|].
  repeat split. intros q Hq. apply lookup_insert_ne.
  intros <-. exact (Hq out eq_refl E).
Qed.

(** X8. [_process_paths] changes nothing on disk but the file the output
    path leads to, and its response does not depend on the output: a write
    that fails, or no output path at all, gives the same response. *)
Theorem process_paths_touches_only_output
    (guess_type : string -> option string) (b64encode : text -> string)
    (files_create : path -> text -> res string)
    (call_model : string -> text -> text -> list string -> list string -> res string)
    (json_loads : string -> option pyval) (json_dumps : pyval -> text)
    (output_path : option path) (input_paths : list path) (model : string)
    (prompt_path : path) (fs : filesystem) :
  let run := _process_paths guess_type b64encode files_create call_model json_loads
               json_dumps in
  dirs (run output_path input_paths model prompt_path fs).2 = dirs fs /\
  (forall q, (forall out, output_path = Some out -> locate fs out <> Ret q) ->
     contents (run output_path input_paths model prompt_path fs).2 !! q
     = contents fs !! q) /\
  (run output_path input_paths model prompt_path fs).1
  = (run None input_paths model prompt_path fs).1.
Proof.
  apply process_paths_frame.
Qed.

(** X9. Every response of [_process_paths] that is a JSON object carries, as
    [report_ids], the names of the PDF files among its inputs, in the
    order of the inputs. *)
Theorem process_paths_report_ids
    (guess_type : string -> option string) (b64encode : text -> string)
    (files_create : path -> text -> res string)
    (call_model : string -> text -> text -> list string -> list string -> res string)
    (json_loads : string -> option pyval) (json_dumps : pyval -> text)
    (output_path : option path) (input_paths : list path) (model : string)
    (prompt_path : path) (fs : filesystem) (r : gmap string pyval) :
  (_process_paths guess_type b64encode files_create call_model json_loads json_dumps
     output_path input_paths model prompt_path fs).1 = Ret (PDict r) ->
  exists c, r !! "context" = Some (PDict c) /\
    c !! "report_ids"
    = Some (PList (PStr <$> (path_name <$> filter (fun p => is_pdf_file p) input_paths))).
Proof.
  unfold _process_paths.
  destruct (let* image_uris := _ in _) as [output_text|e]; simpl; [|discriminate].
  fold (pdf_paths_of input_paths).
  set (v := decode_output json_loads output_text).
  intros H.
  assert (E : postprocess v (pdf_paths_of input_paths) = PDict r)
    by (destruct output_path; simpl in H; congruence).
  destruct v as [| | | | | |d];
    try (rewrite postprocess_not_dict in E by discriminate; discriminate).
  destruct (postprocess_dict d (pdf_paths_of input_paths)) as (r' & c & Hr & Hc & Hids & _).
  rewrite Hr in E. inversion E; subst r'. exists c. auto.
Qed.

(** ** Paths *)









(** ** Directories and files *)






(** ** Following a path without [..] *)










(** ** Saving the uploads *)





(** A file name [..] is not plain: the scratch directory is made, and the
    write is refused, the name leading to a directory. *)
Example upload_named_parent_refused :
  exists fs,
    _save_uploads_to_temp srv "u1" [ {| filename := ".."; file := text_of "%PDF" |} ]
      srv_disk
    = (Raise IsADirectoryError, fs) /\
    contents fs = contents srv_disk /\
    is_dir ["srv"; "tmp_uploads"; "u1"] fs = true.
Proof. eexists. repeat split; vm_compute; reflexivity. Qed.

(** A write below a regular file is refused as such. *)
Example write_below_regular_file :
  write_file ["srv"; "ai-prompt.md"; "x"] [] srv_disk
  = (Raise NotADirectoryError, srv_disk).
Proof. vm_compute. reflexivity. Qed.

(** ** The cleanup *)

Lemma emptied_frame (place : path) (fs : filesystem) (q : path) :
  ~ place `prefix_of` q ->
  (q ∈ dirs (emptied place fs) <-> q ∈ dirs fs) /\
  contents (emptied place fs) !! q = contents fs !! q.
Proof.
  intros Hq. unfold emptied. simpl. split.
  - rewrite elem_of_filter. tauto.
  - destruct (contents fs !! q) as [x|] eqn:E.
    + apply map_lookup_filter_Some. auto.
    + apply map_lookup_filter_None. auto.
Qed.

Lemma emptied_subseteq (place : path) (fs : filesystem) :
  dirs (emptied place fs) ⊆ dirs fs /\ contents (emptied place fs) ⊆ contents fs.
Proof.
  unfold emptied. simpl. split.
  - intros q Hq. apply elem_of_filter in Hq. tauto.
  - apply map_filter_subseteq.
Qed.

(** [rmtree] creates nothing and changes nothing outside the directory
    its path leads to. *)
Lemma rmtree_frame (p : path) (fs : filesystem) :
  dirs (rmtree p fs).2 ⊆ dirs fs /\
  contents (rmtree p fs).2 ⊆ contents fs /\
  match locate fs p with
  | Ret place =>
      forall q, ~ place `prefix_of` q ->
        (q ∈ dirs (rmtree p fs).2 <-> q ∈ dirs fs) /\
        contents (rmtree p fs).2 !! q = contents fs !! q
  | Raise _ => (rmtree p fs).2 = fs
  end.
Proof.
  unfold rmtree. destruct (locate fs p) as [place|e]; [|simpl; auto].
  destruct (emptied_subseteq place fs) as [Hd Hc].
  destruct (is_dir place fs).
  - destruct (_ || _); [|destruct (locate (emptied place fs) p)]; simpl;
      (split; [|split; [exact Hc|]]);
      try exact Hd; try (intros q Hq; apply emptied_frame, Hq).
    + intros q Hq. apply elem_of_difference in Hq as [Hq _]. apply Hd, Hq.
    + intros q Hq. destruct (emptied_frame place fs q Hq) as [H1 H2].
      split; [|exact H2]. rewrite elem_of_difference, H1, elem_of_singleton.
      split; [tauto|]. intros H. split; [exact H|]. intros ->. apply Hq. reflexivity.
  - destruct (is_file place fs); simpl; repeat split; auto.
Qed.



(** X11. The cleanup creates nothing. When the parent of the first path
    leads nowhere the disk is left as it is; otherwise whatever is not at
    or under the directory that parent leads to is left as it is. *)
Theorem cleanup_only_under_parent (BASE_DIR : path) (paths : list path)
    (fs : filesystem) :
  dirs (_cleanup_paths BASE_DIR paths fs) ⊆ dirs fs /\
  contents (_cleanup_paths BASE_DIR paths fs) ⊆ contents fs /\
  forall first rest, paths = first :: rest ->
    match locate fs (path_parent first) with
    | Ret place =>
        forall q, ~ place `prefix_of` q ->
          (q ∈ dirs (_cleanup_paths BASE_DIR paths fs) <-> q ∈ dirs fs) /\
          contents (_cleanup_paths BASE_DIR paths fs) !! q = contents fs !! q
    | Raise _ => _cleanup_paths BASE_DIR paths fs = fs
    end.
Proof.
  unfold _cleanup_paths. destruct paths as [|first rest].
  { repeat split; auto; discriminate. }
  pose proof (rmtree_frame (path_parent first) fs) as (Hd & Hc & Hq).
  unfold os_exists.
  destruct (bool_decide _).
  - destruct (locate fs (path_parent first)) as [place|e] eqn:E.
    + destruct (path_exists place fs && _).
      * split; [exact Hd|]. split; [exact Hc|].
        intros first' rest' H. inversion H; subst. rewrite E. exact Hq.
      * repeat split; auto. intros first' rest' H. inversion H; subst.
        rewrite E. auto.
    + simpl. repeat split; auto. intros first' rest' H. inversion H; subst.
      rewrite E. reflexivity.
  - repeat split; auto. intros first' rest' H. inversion H; subst.
    destruct (locate fs (path_parent first')); auto.
Qed.

(** The parent is followed as the file system follows it: with [..] in
    it, the directory that is removed is the one it leads to. *)
Example cleanup_follows_parent_names :
  let first := ["srv"; "tmp_uploads"; "u1"; ".."; ".."; "tmp_uploads_old"; "x.pdf"] in
  locate sibling_disk_u1 (path_parent first) = Ret ["srv"; "tmp_uploads_old"] /\
  is_dir ["srv"; "tmp_uploads_old"] (_cleanup_paths srv [first] sibling_disk_u1) = false /\
  contents (_cleanup_paths srv [first] sibling_disk_u1)
    !! ["srv"; "tmp_uploads_old"; "x.pdf"] = None /\
  is_dir ["srv"; "tmp_uploads"; "u1"] (_cleanup_paths srv [first] sibling_disk_u1) = true.
Proof. repeat split; vm_compute; reflexivity. Qed.






(** ** The ingest request *)


(** Why the file names have to be plain: with the name [../../x.pdf] the
    file is written beside the code, the parent of the saved path leads
    to [BASE_DIR], its path string starts like that of the scratch root,
    and the cleanup empties [BASE_DIR], prompt file included. *)
Example upload_above_scratch_dir :
  exists fs,
    ingest_labs srv (fun _ _ _ fs => (Ret PNone, fs)) Ret
      (form_with "../../x.pdf") srv_env srv_disk = (Ret PNone, fs) /\
    is_file ["srv"; "ai-prompt.md"] srv_disk = true /\
    is_file ["srv"; "ai-prompt.md"] fs = false /\
    is_file ["srv"; "x.pdf"] fs = false /\
    is_dir ["srv"; "tmp_uploads"] fs = false /\
    is_dir ["srv"] fs = true.
Proof. eexists. repeat split; vm_compute; reflexivity. Qed.





(** X14. A request without uploads never reaches the cleanup: either it
    raises with the disk untouched, or the sample directory is a
    directory with supported regular files, and the answer and the disk
    are exactly what the pipeline gave on these files in sorted order,
    the response passed through [JSONResponse]. *)
Theorem sample_request_cleans_nothing (BASE_DIR : path)
    (_process_paths : list path -> string -> path -> filesystem -> res pyval * filesystem)
    (JSONResponse : pyval -> res pyval)
    (form : ingest_form) (env : server_env) (fs : filesystem) :
  form_files form = [] ->
  let answer := ingest_labs BASE_DIR _process_paths JSONResponse form env fs in
  let prompt_path :=
    if Stdlib.Strings.String.prefix "/" (form_prompt form)
    then path_parts (form_prompt form)
    else resolve_path (path_join BASE_DIR (form_prompt form)) in
  let inputs :=
    filter (fun p => is_file p fs && (is_image_file p || is_pdf_file p))
      (sorted_iterdir fs (DEFAULT_INPUT_DIR BASE_DIR)) in
  (exists e, answer = (Raise e, fs)) \/
  (inputs <> [] /\ is_dir (DEFAULT_INPUT_DIR BASE_DIR) fs = true /\
   answer
   = (let* data := (_process_paths inputs (form_model form) prompt_path fs).1 in
      JSONResponse data,
      (_process_paths inputs (form_model form) prompt_path fs).2)).
Proof.
  intros Hf answer prompt_path inputs. subst answer. unfold ingest_labs.
  destruct (server_api_key env) as [[|c key]|]; eauto.
  fold prompt_path. destruct (negb (os_exists prompt_path fs)); eauto.
  unfold ingest_try. rewrite Hf.
  destruct (sample_wanted BASE_DIR form fs) as [[|]|e]; eauto.
  unfold iterdir.
  destruct (is_dir (DEFAULT_INPUT_DIR BASE_DIR) fs) eqn:Ed;
    [|destruct (is_file _ fs); eauto].
  fold inputs. destruct inputs as [|p rest] eqn:Ei; eauto.
  right. split; [discriminate|]. split; [reflexivity|].
  destruct (_process_paths _ _ _ fs) as [r fs2]. reflexivity.
Qed.

Lemma sample_request_cleans_nothing_witness :
  ingest_labs srv (fun _ _ _ fs => (Ret PNone, fs)) Ret
    {| form_files := []; form_model := "gpt-4.1"; form_prompt := "ai-prompt.md";
       form_use_sample := false |} srv_env sample_disk
  = (Ret PNone, sample_disk).
Proof.
  destruct (sample_request_cleans_nothing srv (fun _ _ _ fs => (Ret PNone, fs)) Ret
              {| form_files := []; form_model := "gpt-4.1";
                 form_prompt := "ai-prompt.md"; form_use_sample := false |}
              srv_env sample_disk eq_refl) as [[e H]|(_ & _ & H)].
  - vm_compute in H. discriminate.
  - exact H.
Defined.

Lemma process_paths_report_ids_witness :
  exists c,
    (<["context" := PDict (<["report_ids" := PList [PStr "b.pdf"]]> ∅)]> ∅
       : gmap string pyval) !! "context" = Some (PDict c) /\
    c !! "report_ids" = Some (PList [PStr "b.pdf"]).
Proof.
  apply (process_paths_report_ids (fun _ => None) (fun _ => "") (fun _ _ => Ret "file-1")
           (fun _ _ _ _ _ => Ret "{}") (fun _ => Some (PDict ∅)) (fun _ => [])
           None [["srv"; "in"; "a.png"]; ["srv"; "in"; "b.pdf"]] "gpt-4.1"
           ["srv"; "ai-prompt.md"] pipeline_disk).
  vm_compute. reflexivity.
Defined.

(** ** The command line: collecting the inputs *)

Lemma explicit_inputs_missing (cwd : path) (fs : filesystem)
    (before : list string) (f : string) (after : list string) :
  (forall g, g ∈ before -> is_file (resolve_path (path_join cwd g)) fs = true) ->
  is_file (resolve_path (path_join cwd f)) fs = false ->
  explicit_inputs cwd fs (before ++ f :: after)%list
  = inl ("ERROR: File not found: " ++ path_str (resolve_path (path_join cwd f))).
Proof.
  intros Hb Hf. induction before as [|g before IH]; simpl.
  - rewrite Hf, orb_true_r. reflexivity.
  - assert (Hg : is_file (resolve_path (path_join cwd g)) fs = true) by (apply Hb; left).
    unfold path_exists. rewrite Hg, orb_true_r. simpl.
    rewrite IH; [reflexivity|]. intros g' H'. apply Hb. right. exact H'.
Qed.

(** X15. When a file named on the command line is, once its path is
    resolved, not a regular file, [main] prints that the first such file
    was not found under its resolved path, returns 2, asks the model
    nothing and leaves the disk as it was. *)
Theorem explicit_missing_file_returns_2
    (guess_type : string -> option string) (b64encode : text -> string)
    (files_create : path -> text -> res string)
    (call_model : string -> text -> text -> list string -> list string -> res string)
    (json_loads : string -> option pyval) (json_dumps : pyval -> text)
    (cwd : path) (fs : filesystem) (system_prompt user_prompt : text)
    (args : cli_args) (before : list string) (f : string) (after : list string) :
  files args = (before ++ f :: after)%list ->
  (forall g, g ∈ before -> is_file (resolve_path (path_join cwd g)) fs = true) ->
  is_file (resolve_path (path_join cwd f)) fs = false ->
  main_rest guess_type b64encode files_create call_model json_loads json_dumps
    cwd fs system_prompt user_prompt args
  = ({| stderr := ["ERROR: File not found: " ++ path_str (resolve_path (path_join cwd f))];
        result := Ret 2 |}, fs).
Proof.
  intros Hfiles Hb Hf. unfold main_rest.
  assert (E : collect_inputs cwd fs args = explicit_inputs cwd fs (files args)).
  { unfold collect_inputs. rewrite Hfiles. destruct before; reflexivity. }
  rewrite E, Hfiles, (explicit_inputs_missing cwd fs before f after Hb Hf).
  reflexivity.
Qed.

Lemma explicit_missing_file_returns_2_witness :
  main_rest (fun _ => None) (fun _ => "") (fun _ _ => Ret "file-1")
    (fun _ _ _ _ _ => Ret "{}") (fun _ => None) (fun _ => [])
    ["srv"] pipeline_disk (text_of "A") (text_of "B")
    {| files := ["in/../in/b.pdf"; "in/sub/../gone.pdf"; "in/a.png"]; output := "labs.json";
       model := "gpt-4.1"; prompt := "ai-prompt.md"; input_dir := "input_files";
       max_files := 0 |}
  = ({| stderr := ["ERROR: File not found: /srv/in/gone.pdf"]; result := Ret 2 |},
     pipeline_disk).
Proof.
  apply (explicit_missing_file_returns_2 _ _ _ _ _ _ ["srv"] pipeline_disk _ _
           {| files := ["in/../in/b.pdf"; "in/sub/../gone.pdf"; "in/a.png"]; output := "labs.json";
              model := "gpt-4.1"; prompt := "ai-prompt.md"; input_dir := "input_files";
              max_files := 0 |} ["in/../in/b.pdf"] "in/sub/../gone.pdf" ["in/a.png"]).
  - reflexivity.
  - intros g H. apply list_elem_of_singleton in H. subst g. vm_compute. reflexivity.
  - vm_compute. reflexivity.
Defined.

Lemma sorted_iterdir_spec (fs : filesystem) (d p : path) :
  p ∈ sorted_iterdir fs d <->
  p <> [] /\ path_parent p = d /\ (p ∈ dirs fs \/ is_file p fs = true).
Proof.
  unfold sorted_iterdir. rewrite merge_sort_Permutation.
  rewrite list_elem_of_filter, elem_of_elements, elem_of_union, elem_of_dom.
  unfold is_file. rewrite bool_decide_eq_true. tauto.
Qed.

Lemma sorted_iterdir_NoDup (fs : filesystem) (d : path) : NoDup (sorted_iterdir fs d).
Proof.
  unfold sorted_iterdir. rewrite merge_sort_Permutation.
  apply NoDup_filter, NoDup_elements.
Qed.

Lemma scan_selection (cwd : path) (fs : filesystem) (args : cli_args)
    (input_paths : list path) :
  files args = [] ->
  collect_inputs cwd fs args = inr input_paths ->
  input_paths <> [] /\ NoDup input_paths /\
  forall p, p ∈ input_paths <->
    p <> [] /\ path_parent p = resolve_path (path_join cwd (input_dir args)) /\
    is_file p fs = true /\ (is_image_file p = true \/ is_pdf_file p = true).
Proof.
  intros Hf. unfold collect_inputs, scanned_inputs. rewrite Hf.
  destruct (negb _ || negb _); [discriminate|].
  set (d := resolve_path (path_join cwd (input_dir args))).
  destruct (filter _ (sorted_iterdir fs d)) as [|p0 rest] eqn:E; [discriminate|].
  intros H. inversion H; subst input_paths. clear H. rewrite <- E.
  split; [rewrite E; discriminate|]. split.
  - apply NoDup_filter, sorted_iterdir_NoDup.
  - intros p. rewrite list_elem_of_filter, sorted_iterdir_spec.
    rewrite Is_true_true, andb_true_iff, orb_true_iff. tauto.
Qed.

(** X16. A scan of the input directory selects exactly the regular files
    directly in the resolved directory that have an image or PDF suffix,
    each once: sub-directories, files deeper down and other files are
    left out; and a scan that [main] goes on with has selected at least
    one file. *)
Theorem directory_scan_selection (cwd : path) (fs : filesystem) (args : cli_args)
    (input_paths : list path) :
  files args = [] ->
  collect_inputs cwd fs args = inr input_paths ->
  input_paths <> [] /\ NoDup input_paths /\
  forall p, p ∈ input_paths <->
    p <> [] /\ path_parent p = resolve_path (path_join cwd (input_dir args)) /\
    is_file p fs = true /\ (is_image_file p = true \/ is_pdf_file p = true).
Proof. apply scan_selection. Qed.

Lemma directory_scan_selection_witness :
  collect_inputs ["srv"] pipeline_disk
    {| files := []; output := "labs.json"; model := "gpt-4.1";
       prompt := "ai-prompt.md"; input_dir := "in/../in"; max_files := 0 |}
  = inr [["srv"; "in"; "a.png"]; ["srv"; "in"; "b.pdf"]] /\
  NoDup [["srv"; "in"; "a.png"]; ["srv"; "in"; "b.pdf"]].
Proof.
  assert (E : collect_inputs ["srv"] pipeline_disk
                {| files := []; output := "labs.json"; model := "gpt-4.1";
                   prompt := "ai-prompt.md"; input_dir := "in/../in"; max_files := 0 |}
              = inr [["srv"; "in"; "a.png"]; ["srv"; "in"; "b.pdf"]])
    by (vm_compute; reflexivity).
  split; [exact E|].
  destruct (directory_scan_selection ["srv"] pipeline_disk
              {| files := []; output := "labs.json"; model := "gpt-4.1";
                 prompt := "ai-prompt.md"; input_dir := "in/../in"; max_files := 0 |}
              [["srv"; "in"; "a.png"]; ["srv"; "in"; "b.pdf"]] eq_refl E) as (_ & H & _).
  exact H.
Defined.

(** X17. A scan that finds no regular file with a supported suffix
    directly in the resolved input directory makes [main] print one error
    line and return 2, with the model not asked and the disk as it
    was. *)
Theorem scan_without_supported_files_returns_2
    (guess_type : string -> option string) (b64encode : text -> string)
    (files_create : path -> text -> res string)
    (call_model : string -> text -> text -> list string -> list string -> res string)
    (json_loads : string -> option pyval) (json_dumps : pyval -> text)
    (cwd : path) (fs : filesystem) (system_prompt user_prompt : text)
    (args : cli_args) :
  files args = [] ->
  (forall p, path_parent p = resolve_path (path_join cwd (input_dir args)) -> is_file p fs = true ->
     is_image_file p = false /\ is_pdf_file p = false) ->
  exists err,
    main_rest guess_type b64encode files_create call_model json_loads json_dumps
      cwd fs system_prompt user_prompt args
    = ({| stderr := [err]; result := Ret 2 |}, fs).
Proof.
  intros Hf Hnone. unfold main_rest.
  destruct (collect_inputs cwd fs args) as [err|input_paths] eqn:E; [eauto|].
  exfalso.
  destruct (scan_selection cwd fs args input_paths Hf E) as (Hne & _ & Hin).
  destruct input_paths as [|p rest]; [contradiction|].
  destruct (proj1 (Hin p)) as (_ & Hp & Hfile & Hkind); [left|].
  destruct (Hnone p Hp Hfile) as [Hi Hd]. rewrite Hi, Hd in Hkind.
  destruct Hkind; discriminate.
Qed.

Lemma scan_without_supported_files_returns_2_witness :
  exists err,
    main_rest (fun _ => None) (fun _ => "") (fun _ _ => Ret "file-1")
      (fun _ _ _ _ _ => Ret "{}") (fun _ => None) (fun _ => [])
      ["srv"] srv_disk (text_of "A") (text_of "B") default_args
    = ({| stderr := [err]; result := Ret 2 |}, srv_disk).
Proof.
  apply scan_without_supported_files_returns_2; [reflexivity|].
  intros p Hp Hfile. exfalso.
  unfold is_file in Hfile. apply bool_decide_eq_true_1 in Hfile as [x Hx].
  change (contents srv_disk) with ({[ ["srv"; "ai-prompt.md"] := sample_prompt ]}
                                     : gmap path text) in Hx.
  apply lookup_singleton_Some in Hx as [<- _]. vm_compute in Hp. discriminate.
Defined.

(** ** The command line: inputs of no supported kind *)




(** ** The order of the scanned files *)

Lemma string_ltb_leb (a b : string) : (a <? b)%string = true -> (a <=? b)%string = true.
Proof.
  unfold Stdlib.Strings.String.ltb, Stdlib.Strings.String.leb.
  destruct (a ?= b)%string; auto; discriminate.
Qed.

Lemma string_leb_ltb (a b : string) :
  (a <=? b)%string = true -> a <> b -> (a <? b)%string = true.
Proof.
  unfold Stdlib.Strings.String.ltb, Stdlib.Strings.String.leb.
  destruct (a ?= b)%string eqn:E.
  - intros _ H. exfalso. apply H. apply Stdlib.Strings.String.compare_eq_iff, E.
  - reflexivity.
  - discriminate.
Qed.

Lemma string_ltb_irrefl (a : string) : (a <? a)%string = false.
Proof.
  unfold Stdlib.Strings.String.ltb.
  pose proof (Stdlib.Strings.String.compare_antisym a a) as H.
  destruct (a ?= a)%string; try reflexivity. discriminate.
Qed.

Lemma string_ltb_trans (a b c : string) :
  (a <? b)%string = true -> (b <? c)%string = true -> (a <? c)%string = true.
Proof.
  intros Hab Hbc.
  pose proof (string_ltb_leb _ _ Hab) as Lab.
  pose proof (string_ltb_leb _ _ Hbc) as Lbc.
  apply string_leb_ltb.
  - assert (T : String.le a c).
    { transitivity b; unfold String.le; [rewrite Lab | rewrite Lbc]; exact I. }
    unfold String.le in T. destruct (a <=? c)%string; [reflexivity | contradiction].
  - intros ->.
    assert (b = c) by (apply Stdlib.Strings.String.leb_antisym; assumption).
    subst b. rewrite string_ltb_irrefl in Hbc. discriminate.
Qed.

Lemma path_leb_total (p q : path) : path_leb p q = true \/ path_leb q p = true.
Proof.
  revert q. induction p as [|a p IH]; intros [|b q]; simpl; auto.
  destruct (Stdlib.Strings.String.eqb_spec a b) as [->|Hne].
  - rewrite Stdlib.Strings.String.eqb_refl. apply IH.
  - destruct (Stdlib.Strings.String.eqb_spec b a) as [->|_]; [contradiction|].
    destruct (Stdlib.Strings.String.leb_total a b) as [H|H].
    + left. apply string_leb_ltb; assumption.
    + right. apply string_leb_ltb; [assumption | congruence].
Qed.

Lemma path_leb_trans (p q r : path) :
  path_leb p q = true -> path_leb q r = true -> path_leb p r = true.
Proof.
  revert q r. induction p as [|a p IH]; intros [|b q] [|c r]; simpl; auto;
    try discriminate.
  destruct (Stdlib.Strings.String.eqb_spec a b) as [->|Hab].
  - destruct (Stdlib.Strings.String.eqb_spec b c) as [->|Hbc]; [apply IH | auto].
  - destruct (Stdlib.Strings.String.eqb_spec b c) as [->|Hbc].
    + destruct (Stdlib.Strings.String.eqb_spec a c) as [->|_]; [contradiction | auto].
    + intros H1 H2. pose proof (string_ltb_trans _ _ _ H1 H2) as H3.
      destruct (Stdlib.Strings.String.eqb_spec a c) as [->|_]; [|exact H3].
      rewrite string_ltb_irrefl in H3. discriminate.
Qed.

#[local] Instance path_le_total : Total path_le.
Proof.
  intros p q. unfold path_le.
  destruct (path_leb_total p q) as [-> | ->]; [left | right]; exact I.
Qed.

#[local] Instance path_le_trans : Transitive path_le.
Proof.
  intros p q r. unfold path_le. intros H1 H2.
  apply Is_true_true in H1, H2. apply Is_true_true. eapply path_leb_trans; eassumption.
Qed.

Lemma StronglySorted_filter_keep {A : Type} (R : relation A) (P : A -> Prop)
    `{!forall x, Decision (P x)} (l : list A) :
  StronglySorted R l -> StronglySorted R (filter P l).
Proof.
  induction 1 as [|x l Hl IH Hx]; [constructor|].
  rewrite filter_cons. destruct (decide (P x)); [|exact IH].
  constructor; [exact IH|].
  apply Forall_forall. intros y Hy. apply list_elem_of_filter in Hy as [_ Hy].
  rewrite Forall_forall in Hx. apply Hx, Hy.
Qed.

Lemma limit_inputs_prefix (n : Z) (l : list path) : limit_inputs n l `prefix_of` l.
Proof.
  unfold limit_inputs. destruct (_ && _); [apply prefix_take | reflexivity].
Qed.

(** X20. The scanned files come in the order of their paths, and a
    positive [--max-files] keeps the first of them in that order; zero or
    a negative number keeps them all. *)
Theorem directory_scan_sorted (cwd : path) (fs : filesystem) (args : cli_args)
    (found : list path) :
  files args = [] ->
  collect_inputs cwd fs args = inr found ->
  StronglySorted path_le found /\
  StronglySorted path_le (limit_inputs (max_files args) found) /\
  ((0 < max_files args)%Z ->
   limit_inputs (max_files args) found = take (Z.to_nat (max_files args)) found) /\
  ((max_files args <= 0)%Z -> limit_inputs (max_files args) found = found).
Proof.
  intros Hf. unfold collect_inputs, scanned_inputs. rewrite Hf.
  destruct (negb _ || negb _); [discriminate|].
  set (d := resolve_path (path_join cwd (input_dir args))).
  destruct (filter _ (sorted_iterdir fs d)) as [|p0 rest] eqn:E; [discriminate|].
  intros H. inversion H; subst found. clear H. rewrite <- E.
  assert (S : StronglySorted path_le
                (filter (fun p => is_file p fs && (is_image_file p || is_pdf_file p))
                   (sorted_iterdir fs d))).
  { apply StronglySorted_filter_keep. unfold sorted_iterdir.
    apply (StronglySorted_merge_sort path_le). }
  split; [exact S|]. split; [|split].
  - destruct (limit_inputs_prefix (max_files args)
                (filter (fun p => is_file p fs && (is_image_file p || is_pdf_file p))
                   (sorted_iterdir fs d))) as [k Hk].
    rewrite Hk in S. apply StronglySorted_app_1_l in S. exact S.
  - intros Hpos. unfold limit_inputs.
    replace (max_files args =? 0)%Z with false by (symmetry; apply Z.eqb_neq; lia).
    replace (0 <? max_files args)%Z with true by (symmetry; apply Z.ltb_lt; lia).
    reflexivity.
  - intros Hle. unfold limit_inputs.
    replace (0 <? max_files args)%Z with false by (symmetry; apply Z.ltb_ge; lia).
    rewrite andb_false_r. reflexivity.
Qed.

Lemma directory_scan_sorted_witness :
  StronglySorted path_le [["srv"; "in"; "a.png"]; ["srv"; "in"; "b.pdf"]] /\
  limit_inputs 1 [["srv"; "in"; "a.png"]; ["srv"; "in"; "b.pdf"]]
  = [["srv"; "in"; "a.png"]].
Proof.
  destruct (directory_scan_sorted ["srv"] pipeline_disk
              {| files := []; output := "labs.json"; model := "gpt-4.1";
                 prompt := "ai-prompt.md"; input_dir := "in"; max_files := 1 |}
              [["srv"; "in"; "a.png"]; ["srv"; "in"; "b.pdf"]] eq_refl)
    as (H1 & _ & H2 & _).
  - vm_compute. reflexivity.
  - split; [exact H1|]. apply H2. simpl. lia.
Defined.

(** ** Text before the markers *)

Lemma splitlines_from_line_feed (n : nat) (a b cur : text) :
  (length a <= n)%nat ->
  splitlines_from cur (a ++ 10%N :: b)
  = (splitlines_from cur (a ++ [10%N]) ++ splitlines b)%list.
Proof.
  revert a cur. induction n as [|n IH]; intros a cur Hn.
  - destruct a; [|simpl in Hn; lia]. simpl. destruct b; reflexivity.
  - destruct a as [|c a]; [simpl; destruct b; reflexivity|].
    simpl in Hn. cbn [app splitlines_from].
    destruct (is_linebreak c); [|apply IH; lia].
    rewrite <- app_comm_cons. f_equal.
    destruct a as [|c2 a].
    + cbn [app]. destruct ((c =? 13)%N && (10 =? 10)%N); [reflexivity|].
      apply (IH [] []). simpl. lia.
    + cbn [app]. destruct ((c =? 13)%N && (c2 =? 10)%N).
      * apply IH. simpl in Hn. lia.
      * apply (IH (c2 :: a) []). lia.
Qed.

Lemma prompt_lines_line_feed (a b : text) :
  prompt_lines (a ++ 10%N :: b)
  = (prompt_lines (a ++ [10%N]) ++ prompt_lines b)%list.
Proof.
  unfold prompt_lines, splitlines.
  rewrite (splitlines_from_line_feed (length a) a b []) by lia.
  apply fmap_app.
Qed.

Lemma find_index_from_range (lines : list text) (label : text) (k : Z) :
  find_index_from k lines label = -1 \/ k <= find_index_from k lines label.
Proof.
  revert k. induction lines as [|ln rest IH]; intros k; simpl; [auto|].
  destruct (decide (strip ln = label)); [right; lia|].
  destruct (IH (k + 1)) as [H|H]; [auto | right; lia].
Qed.

Lemma find_index_from_shift (lines : list text) (label : text) (k : Z) :
  0 <= k ->
  find_index_from k lines label
  = if (find_index lines label =? -1)%Z then -1 else k + find_index lines label.
Proof.
  unfold find_index. revert k. induction lines as [|ln rest IH]; intros k Hk; simpl.
  - reflexivity.
  - destruct (decide (strip ln = label)); [simpl; lia|].
    rewrite (IH (k + 1)) by lia. rewrite (IH (0 + 1)) by lia.
    pose proof (find_index_from_range rest label 0) as R.
    set (f := find_index_from 0 rest label) in *.
    destruct (f =? -1)%Z eqn:T.
    + reflexivity.
    + apply Z.eqb_neq in T.
      destruct (0 + 1 + f =? -1)%Z eqn:T'; [apply Z.eqb_eq in T'; lia | lia].
Qed.

Lemma find_index_skip (before lines : list text) (label : text) (k : Z) :
  (forall ln, ln ∈ before -> strip ln <> label) ->
  find_index_from k (before ++ lines) label
  = find_index_from (k + Z.of_nat (length before)) lines label.
Proof.
  revert k. induction before as [|ln before IH]; intros k H; simpl.
  - f_equal. lia.
  - destruct (decide (strip ln = label)) as [E|_]; [exfalso; apply (H ln); [left|exact E]|].
    rewrite IH by (intros ln' H'; apply H; right; exact H'). f_equal. lia.
Qed.

Lemma slice_skip (before lines : list text) (a b : Z) :
  0 <= a ->
  slice (before ++ lines) (Z.of_nat (length before) + a) (Z.of_nat (length before) + b)
  = slice lines a b.
Proof.
  intros Ha. unfold slice.
  replace (Z.of_nat (length before) + b - (Z.of_nat (length before) + a)) with (b - a)
    by lia.
  f_equal.
  replace (Z.to_nat (Z.of_nat (length before) + a)) with (length before + Z.to_nat a)%nat
    by lia.
  apply drop_app_add.
Qed.

Lemma slice_from_skip (before lines : list text) (a : Z) :
  0 <= a ->
  slice_from (before ++ lines) (Z.of_nat (length before) + a) = slice_from lines a.
Proof.
  intros Ha. unfold slice_from.
  replace (Z.to_nat (Z.of_nat (length before) + a)) with (length before + Z.to_nat a)%nat
    by lia.
  apply drop_app_add.
Qed.

Lemma find_index_after (before lines : list text) (label : text) :
  (forall ln, ln ∈ before -> strip ln <> label) ->
  find_index (before ++ lines) label
  = if (find_index lines label =? -1)%Z then -1
    else Z.of_nat (length before) + find_index lines label.
Proof.
  intros H. unfold find_index at 1. rewrite (find_index_skip before lines label 0 H).
  rewrite find_index_from_shift by lia. reflexivity.
Qed.

Lemma parse_prompts_skip (preamble content : text) :
  (forall ln, ln ∈ prompt_lines (preamble ++ [10%N]) ->
     strip ln <> SYSTEM /\ strip ln <> USER) ->
  parse_prompts (preamble ++ 10%N :: content) = parse_prompts content.
Proof.
  intros Hpre. unfold parse_prompts. rewrite prompt_lines_line_feed.
  set (before := prompt_lines (preamble ++ [10%N])) in *.
  set (lines := prompt_lines content).
  rewrite (find_index_after before lines SYSTEM) by (intros ln H; apply (Hpre ln H)).
  rewrite (find_index_after before lines USER) by (intros ln H; apply (Hpre ln H)).
  pose proof (find_index_from_range lines SYSTEM 0) as Rs.
  pose proof (find_index_from_range lines USER 0) as Ru.
  fold (find_index lines SYSTEM) in Rs. fold (find_index lines USER) in Ru.
  set (s := find_index lines SYSTEM) in *. set (u := find_index lines USER) in *.
  set (n := Z.of_nat (length before)).
  destruct (s =? -1)%Z eqn:Ts; [reflexivity|]. apply Z.eqb_neq in Ts.
  destruct (u =? -1)%Z eqn:Tu; [simpl; rewrite orb_true_r; reflexivity|].
  apply Z.eqb_neq in Tu.
  replace (n + s =? -1)%Z with false by (symmetry; apply Z.eqb_neq; lia).
  replace (n + u =? -1)%Z with false by (symmetry; apply Z.eqb_neq; lia).
  replace (n + u <=? n + s)%Z with (u <=? s)%Z
    by (destruct (u <=? s)%Z eqn:T; symmetry;
        [apply Z.leb_le in T; apply Z.leb_le; lia
        |apply Z.leb_gt in T; apply Z.leb_gt; lia]).
  simpl. destruct (u <=? s)%Z; [reflexivity|].
  replace (n + s + 1) with (n + (s + 1)) by lia.
  replace (n + u + 1) with (n + (u + 1)) by lia.
  unfold n. rewrite slice_skip, slice_from_skip by lia. reflexivity.
Qed.

(** X21. Lines put before the markers change nothing, so long as none of
    them is a marker line itself: the file loads to the same prompts, or
    the same failure, as without them. *)
Theorem text_before_markers_ignored (fs : gmap string text) (markdown_path : string)
    (preamble content : text) :
  (forall ln, ln ∈ prompt_lines (preamble ++ [10%N]) ->
     strip ln <> SYSTEM /\ strip ln <> USER) ->
  read_prompts_from_markdown (<[markdown_path := (preamble ++ 10%N :: content)%list]> fs)
    markdown_path
  = read_prompts_from_markdown (<[markdown_path := content]> fs) markdown_path.
Proof.
  intros H. unfold read_prompts_from_markdown, read_text.
  rewrite !lookup_insert_eq. simpl. apply parse_prompts_skip, H.
Qed.

Lemma text_before_markers_ignored_witness :
  read_prompts_from_markdown
    (<["ai-prompt.md" := (text_of "# Lab prompts" ++ 10%N :: sample_prompt)%list]> ∅)
    "ai-prompt.md"
  = Ret ((text_of "A" ++ nl ++ text_of "B")%list, (text_of "C" ++ nl ++ text_of "D")%list).
Proof.
  rewrite (text_before_markers_ignored ∅ "ai-prompt.md" (text_of "# Lab prompts")
             sample_prompt).
  - vm_compute. reflexivity.
  - intros ln H.
    change (prompt_lines (text_of "# Lab prompts" ++ [10%N]))
      with [text_of "# Lab prompts"] in H.
    apply list_elem_of_singleton in H. subst ln. split; vm_compute; discriminate.
Defined.

(** ** What an upload request leaves on disk *)


